(** * A shallow embedding of the FURY Python SDK

    The SDK is a thin HTTP wrapper: every public method of a domain client
    builds a JSON body, hands it to [FurySDK.request], and relays what the
    dispatcher returns or raises.  The embedding follows the Python sources
    module by module:

    - [fury/models.py]      ->  [Protocol]
    - [fury/exceptions.py]  ->  [exn], [FuryAPIError_init]
    - [fury/fury-sdk.py]    ->  [FurySDK]
    - [furySDK/clients.py]  ->  [TokensClient], [TransactionsClient],
                                [AnalyticsClient], [UtilitiesClient],
                                [WalletsClient]

    Python values are dynamically typed, so arguments and JSON documents are
    values of one type [pyval]; dictionaries are finite maps with string keys.
    The [requests] library is outside the repository: its [Session.request] is
    an oracle [Transport], and the few library behaviours the dispatcher
    depends on ([Response.raise_for_status], [Response.ok], [Response.json])
    are written out in module [Response]. *)

From Stdlib Require Import ZArith String Ascii List.
From Stdlib Require Import Floats.SpecFloat.
From stdpp Require Import gmap strings list fin_maps pretty.

Set Warnings "-register-all,-clear-no-such-hyp".
Local Open Scope string_scope.

(** ** Python strings *)

(** A [string] is read as a sequence of code points below 256 (the Latin-1
    block of a Python [str]). *)
Module PyStr.

(** [str.lower] on one code point: [A-Z] and the upper-case letters of
    Latin-1 (U+00C0 to U+00DE, the multiplication sign U+00D7 excepted)
    move 32 places up; every other code point below 256 stays. *)
Definition lower_char (c : ascii) : ascii :=
  let n := N_of_ascii c in
  if ((65 <=? n) && (n <=? 90) ||
      (192 <=? n) && (n <=? 222) && negb (n =? 215))%N
  then ascii_of_N (n + 32)
  else c.

(** [s.lower()] *)
Fixpoint lower (s : string) : string :=
  match s with
  | EmptyString => EmptyString
  | String c s' => String (lower_char c) (lower s')
  end.

(** [c in chars] for a one-character [c] *)
Fixpoint mem (c : ascii) (chars : string) : bool :=
  match chars with
  | EmptyString => false
  | String d chars' => if Ascii.eqb c d then true else mem c chars'
  end.

(** [s.rstrip(chars)]: drop the longest suffix made of characters of
    [chars]. *)
Fixpoint rstrip (chars : string) (s : string) : string :=
  match s with
  | EmptyString => EmptyString
  | String c s' =>
      match rstrip chars s' with
      | EmptyString => if mem c chars then EmptyString else String c EmptyString
      | r => String c r
      end
  end.

(** [sep.join(l)] *)
Fixpoint join (sep : string) (l : list string) : string :=
  match l with
  | [] => EmptyString
  | [x] => x
  | x :: l' => x ++ sep ++ join sep l'
  end.

(** [n] copies of the character [c] *)
Fixpoint replicate (n : nat) (c : ascii) : string :=
  match n with
  | O => EmptyString
  | S n' => String c (replicate n' c)
  end.

(** [s.endswith(c)] for a one-character [c] *)
Fixpoint ends_with (c : ascii) (s : string) : bool :=
  match s with
  | EmptyString => false
  | String d EmptyString => Ascii.eqb d c
  | String _ s' => ends_with c s'
  end.

End PyStr.

(** ** Python values *)

(** The values that travel through the SDK: method arguments, JSON request
    bodies and decoded JSON responses. *)
Inductive pyval : Type :=
  | PNone
  | PBool (b : bool)
  | PInt (z : Z)
  | PFloat (f : spec_float)
  | PStr (s : string)
  | PList (l : list pyval)
  | PDict (d : gmap string pyval).

(** [bool(v)], the test behind [if v:], [v and w] and [v or w]. *)
Definition truthy (v : pyval) : bool :=
  match v with
  | PNone => false
  | PBool b => b
  | PInt z => negb (z =? 0)%Z
  | PFloat f => match f with S754_zero _ => false | _ => true end
  | PStr s => match s with EmptyString => false | _ => true end
  | PList l => match l with [] => false | _ => true end
  | PDict d => negb (bool_decide (d = ∅))
  end.

(** [v or w] *)
Definition py_or (v w : pyval) : pyval := if truthy v then v else w.

(** [type(v).__name__] *)
Definition type_name (v : pyval) : string :=
  match v with
  | PNone => "NoneType"
  | PBool _ => "bool"
  | PInt _ => "int"
  | PFloat _ => "float"
  | PStr _ => "str"
  | PList _ => "list"
  | PDict _ => "dict"
  end.

(** [found] when the lookup succeeded, [default] otherwise *)
Definition default_or_found (default : pyval) (found : option pyval) : pyval :=
  match found with
  | Some v => v
  | None => default
  end.

(** A parameter with a default value: [None] is "not supplied by the
    caller". *)
Definition supplied_or (default : pyval) (arg : option pyval) : pyval :=
  match arg with
  | Some v => v
  | None => default
  end.

(** ** The [requests] library, as far as the dispatcher sees it *)

(** What [Response.json()] does with the body: it returns the decoded
    document, or raises [requests.exceptions.JSONDecodeError] with the text
    [why]. *)
Inductive json_result : Type :=
  | Decoded (v : pyval)
  | Undecodable (why : string).

Module Response.

Record t : Type := mk {
  status_code : Z;
  reason : string;
  url : string;
  text : string;
  json : json_result
}.

(** [Response.raise_for_status]: [Some msg] is [raise HTTPError(msg,
    response=self)], [None] is a normal return. *)
Definition raise_for_status (r : t) : option string :=
  if ((400 <=? status_code r) && (status_code r <? 500))%Z then
    Some (pretty (status_code r) ++ " Client Error: " ++ reason r
            ++ " for url: " ++ url r)
  else if ((500 <=? status_code r) && (status_code r <? 600))%Z then
    Some (pretty (status_code r) ++ " Server Error: " ++ reason r
            ++ " for url: " ++ url r)
  else None.

(** [Response.ok]: whether [raise_for_status] returns normally.
    [Response.__bool__] is defined as [return self.ok], so a response object
    with an error status is falsy. *)
Definition ok (r : t) : bool :=
  match raise_for_status r with
  | Some _ => false
  | None => true
  end.

End Response.

(** A [requests.exceptions.RequestException]: its text [str(e)] and its
    [response] attribute, which is [None] unless the raiser attached one. *)
Record RequestException : Type := mkRequestException {
  re_str : string;
  re_response : option Response.t
}.

(** One call [session.request(method, url, **kwargs)]. *)
Record HttpCall : Type := mkHttpCall {
  call_method : string;
  call_url : string;
  call_kwargs : gmap string pyval
}.

(** A [requests.Session]: the headers it attaches to every request. *)
Record Session : Type := mkSession {
  headers : gmap string string
}.

(** What [session.request] does with a call: it returns a response or raises
    a [RequestException] (connection failure, timeout, invalid URL, ...). *)
Inductive transport_outcome : Type :=
  | Responded (r : Response.t)
  | Failed (e : RequestException).

Definition Transport : Type := Session -> HttpCall -> transport_outcome.

(** ** Objects, exceptions and the effect monad *)

(** A Python object that is either a plain value or a response object; the
    [status_code] attribute of an API error can hold both. *)
Inductive pyobj : Type :=
  | OVal (v : pyval)
  | OResponse (r : Response.t).

(** [bool(o)] *)
Definition obj_truthy (o : pyobj) : bool :=
  match o with
  | OVal v => truthy v
  | OResponse r => Response.ok r
  end.

(** [x and y], with [y] evaluated only when [x] is truthy *)
Definition py_and (x : pyobj) (y : unit -> pyobj) : pyobj :=
  if obj_truthy x then y tt else x.

(** fury/exceptions.py, together with the built-in exceptions that can leave
    the SDK. [FuryAPIError] carries the attributes [status_code] and
    [error_data] and the message given to [Exception.__init__]. *)
Inductive exn : Type :=
  | FuryAPIError (status_code : pyobj) (message : pyval) (error_data : pyval)
  | ValidationError (message : string)
  | ValueError (message : string)
  | AttributeError (message : string).

(** [isinstance(e, FurySDKError)]: the typed errors of the SDK. *)
Definition is_sdk_error (e : exn) : bool :=
  match e with
  | FuryAPIError _ _ _ | ValidationError _ => true
  | ValueError _ | AttributeError _ => false
  end.

(** [FuryAPIError.__init__(status_code, message, error_data)] *)
Definition FuryAPIError_init
    (status_code : pyobj) (message : pyval) (error_data : pyval) : exn :=
  FuryAPIError status_code message (py_or error_data (PDict ∅)).

(** How a call ends: [return a] or [raise e]. *)
Inductive outcome (A : Type) : Type :=
  | Returned (a : A)
  | Raised (e : exn).
Arguments Returned {A} a.
Arguments Raised {A} e.

(** ** fury/models.py: the protocol enumeration *)

Module Protocol.

Definition RAYDIUM := "raydium".
Definition JUPITER := "jupiter".
Definition PUMPFUN := "pumpfun".
Definition MOONSHOT := "moonshot".
Definition PUMPSWAP := "pumpswap".
Definition AUTO := "auto".

Definition values : list string :=
  [RAYDIUM; JUPITER; PUMPFUN; MOONSHOT; PUMPSWAP; AUTO].

(** [x in cls.values()] *)
Definition is_value (x : string) : bool :=
  existsb (String.eqb x) values.

(** The text of the [ValueError] raised by [validate]. *)
Definition invalid_message (protocol : string) : string :=
  "Invalid protocol: " ++ protocol ++ ". Must be one of: "
    ++ PyStr.join ", " values.

Definition validate (protocol : string) : outcome string :=
  if negb (is_value (PyStr.lower protocol))
  then Raised (ValueError (invalid_message protocol))
  else Returned (PyStr.lower protocol).

End Protocol.

(** ** The SDK object and the world it lives in *)

(** The attributes of a [FurySDK] object.  The five client attributes hold
    objects whose only attribute points back to the SDK object; they are the
    client modules further down. *)
Record FurySDK_object : Type := mkFurySDK {
  base_url : string;
  api_key : option string;
  _session : Session
}.

(** The state a call runs in: the SDK object ([self], or [self.sdk] for a
    client) and the calls made on its session so far, oldest first. *)
Record World : Type := mkWorld {
  sdk : FurySDK_object;
  wire : list HttpCall
}.

(** A computation that reads and writes the world and returns or raises. *)
Definition M (A : Type) : Type := World -> outcome A * World.

Definition ret {A} (a : A) : M A := fun w => (Returned a, w).
Definition raise {A} (e : exn) : M A := fun w => (Raised e, w).
Definition bind {A B} (m : M A) (k : A -> M B) : M B :=
  fun w =>
    match m w with
    | (Returned a, w') => k a w'
    | (Raised e, w') => (Raised e, w')
    end.
Definition get_self : M FurySDK_object := fun w => (Returned (sdk w), w).

Declare Scope sdk_scope.
Delimit Scope sdk_scope with sdk.
Notation "x <- m ;; k" := (bind m (fun x => k))
  (at level 100, m at next level, right associativity) : sdk_scope.
Local Open Scope sdk_scope.

(** [self._session.request(method, url, **kwargs)]: the call goes on the
    wire and the transport answers it. *)
Definition session_request (net : Transport) (method url : string)
    (kwargs : gmap string pyval) : M transport_outcome :=
  fun w =>
    let call := {| call_method := method; call_url := url;
                   call_kwargs := kwargs |} in
    (Returned (net (_session (sdk w)) call),
     {| sdk := sdk w; wire := wire w ++ [call] |}).

(** [d.get(key, default)] on a value [d]: only a dictionary has the method. *)
Definition py_get (d : pyval) (key : string) (default : pyval) : outcome pyval :=
  match d with
  | PDict m => Returned (default_or_found default (m !! key))
  | _ => Raised (AttributeError
                   ("'" ++ type_name d ++ "' object has no attribute 'get'"))
  end.

(** ** fury/fury-sdk.py: the dispatcher *)

Module FurySDK.

(** [FurySDK.__init__(base_url, api_key=None)]; [fresh] is the value of
    [requests.Session()]. *)
Definition init (fresh : Session) (base_url : string)
    (api_key : option string) : FurySDK_object :=
  {| base_url := PyStr.rstrip "/" base_url;
     api_key := api_key;
     _session :=
       match api_key with
       | Some key =>
           if truthy (PStr key)
           then {| headers := <["Authorization" := "Bearer " ++ key]>
                                (headers fresh) |}
           else fresh
       | None => fresh
       end |}.

Section Dispatch.
Context (net : Transport).

(** The body of [except requests.exceptions.RequestException as e:].
    [fallback] is the final [raise], reached when [e] has no response or when
    the body of the response does not decode ([except ValueError: pass]); its
    status code is [getattr(e, 'response', None) and e.response.status_code].
    An exception raised by [error_data.get] is not a [ValueError] and
    propagates. *)
Definition on_request_exception (e : RequestException) : M pyval :=
  let fallback : M pyval :=
    raise (FuryAPIError_init
             (py_and (match re_response e with
                      | Some r => OResponse r
                      | None => OVal PNone
                      end)
                     (fun _ =>
                        match re_response e with
                        | Some r => OVal (PInt (Response.status_code r))
                        | None => OVal PNone
                        end))
             (PStr (re_str e))
             PNone) in
  match re_response e with
  | Some r =>
      match Response.json r with
      | Decoded error_data =>
          match py_get error_data "message" (PStr (re_str e)) with
          | Returned message =>
              raise (FuryAPIError_init
                       (OVal (PInt (Response.status_code r)))
                       message error_data)
          | Raised err => raise err
          end
      | Undecodable _ => fallback
      end
  | None => fallback
  end.

(** [FurySDK.request(method, endpoint, **kwargs)].  The three statements of
    the [try] block can each raise a [RequestException]: [session.request]
    itself, [raise_for_status] (an [HTTPError] that carries the response) and
    [response.json()] (a [JSONDecodeError], which carries none). *)
Definition request (method endpoint : string)
    (kwargs : gmap string pyval) : M pyval :=
  self <- get_self ;;
  let url := base_url self ++ endpoint in
  answer <- session_request net method url kwargs ;;
  match answer with
  | Failed e => on_request_exception e
  | Responded response =>
      match Response.raise_for_status response with
      | Some msg =>
          on_request_exception
            {| re_str := msg; re_response := Some response |}
      | None =>
          match Response.json response with
          | Decoded v => ret v
          | Undecodable why =>
              on_request_exception
                {| re_str := why; re_response := None |}
          end
      end
  end.

(** [FurySDK.health_check()] *)
Definition health_check : M pyval := request "GET" "/health" ∅.

End Dispatch.

End FurySDK.

(** ** furySDK/clients.py: the domain clients *)

(** [if value: data[key] = value] *)
Definition set_if_truthy (key : string) (value : pyval)
    (data : gmap string pyval) : gmap string pyval :=
  if truthy value then <[key := value]> data else data.

(** The keyword arguments of [request(..., json=data)]. *)
Definition json_kwargs (data : gmap string pyval) : gmap string pyval :=
  {["json" := PDict data]}.

Module TokensClient.

(** The dictionary [data] that [buy] has built when it reaches its
    [return]. *)
Definition buy_data (wallet_addresses token_address sol_amount : pyval)
    (protocol affiliate_address affiliate_fee jito_tip_lamports
       slippage_bps : option pyval) : gmap string pyval :=
  let protocol := supplied_or (PStr "auto") protocol in
  let affiliate_address := supplied_or PNone affiliate_address in
  let affiliate_fee := supplied_or PNone affiliate_fee in
  let jito_tip_lamports := supplied_or PNone jito_tip_lamports in
  let slippage_bps := supplied_or PNone slippage_bps in
  let data : gmap string pyval :=
    <["walletAddresses" := wallet_addresses]>
      (<["tokenAddress" := token_address]>
         (<["solAmount" := sol_amount]>
            (<["protocol" := protocol]> ∅))) in
  let data := set_if_truthy "affiliateAddress" affiliate_address data in
  let data := set_if_truthy "affiliateFee" affiliate_fee data in
  let data := set_if_truthy "jitoTipLamports" jito_tip_lamports data in
  let data := set_if_truthy "slippageBps" slippage_bps data in
  data.

(** The dictionary [data] of [sell]; [percentage] defaults to 100. *)
Definition sell_data (wallet_addresses token_address : pyval)
    (percentage protocol affiliate_address affiliate_fee jito_tip_lamports
       slippage_bps : option pyval) : gmap string pyval :=
  let percentage := supplied_or (PInt 100) percentage in
  let protocol := supplied_or (PStr "auto") protocol in
  let affiliate_address := supplied_or PNone affiliate_address in
  let affiliate_fee := supplied_or PNone affiliate_fee in
  let jito_tip_lamports := supplied_or PNone jito_tip_lamports in
  let slippage_bps := supplied_or PNone slippage_bps in
  let data : gmap string pyval :=
    <["walletAddresses" := wallet_addresses]>
      (<["tokenAddress" := token_address]>
         (<["percentage" := percentage]>
            (<["protocol" := protocol]> ∅))) in
  let data := set_if_truthy "affiliateAddress" affiliate_address data in
  let data := set_if_truthy "affiliateFee" affiliate_fee data in
  let data := set_if_truthy "jitoTipLamports" jito_tip_lamports data in
  let data := set_if_truthy "slippageBps" slippage_bps data in
  data.

Definition transfer_data
    (sender_public_key receiver token_address amount : pyval)
    : gmap string pyval :=
  <["senderPublicKey" := sender_public_key]>
    (<["receiver" := receiver]>
       (<["tokenAddress" := token_address]>
          (<["amount" := amount]> ∅))).

Definition create_data (wallet_addresses mint_pubkey config amounts : pyval)
    : gmap string pyval :=
  <["walletAddresses" := wallet_addresses]>
    (<["mintPubkey" := mint_pubkey]>
       (<["config" := config]>
          (<["amounts" := amounts]> ∅))).

Definition burn_data (wallet_public_key token_address amount : pyval)
    : gmap string pyval :=
  <["walletPublicKey" := wallet_public_key]>
    (<["tokenAddress" := token_address]>
       (<["amount" := amount]> ∅)).

Definition cleaner_data
    (seller_address buyer_address token_address sell_percentage
       buy_percentage : pyval) : gmap string pyval :=
  <["sellerAddress" := seller_address]>
    (<["buyerAddress" := buyer_address]>
       (<["tokenAddress" := token_address]>
          (<["sellPercentage" := sell_percentage]>
             (<["buyPercentage" := buy_percentage]> ∅)))).

Section Methods.
Context (net : Transport).

Definition buy (wallet_addresses token_address sol_amount : pyval)
    (protocol affiliate_address affiliate_fee jito_tip_lamports
       slippage_bps : option pyval) : M pyval :=
  FurySDK.request net "POST" "/api/tokens/buy"
    (json_kwargs
       (buy_data wallet_addresses token_address sol_amount protocol
          affiliate_address affiliate_fee jito_tip_lamports slippage_bps)).

Definition sell (wallet_addresses token_address : pyval)
    (percentage protocol affiliate_address affiliate_fee
       jito_tip_lamports slippage_bps : option pyval) : M pyval :=
  FurySDK.request net "POST" "/api/tokens/sell"
    (json_kwargs
       (sell_data wallet_addresses token_address percentage protocol
          affiliate_address affiliate_fee jito_tip_lamports slippage_bps)).

Definition transfer
    (sender_public_key receiver token_address amount : pyval) : M pyval :=
  FurySDK.request net "POST" "/api/tokens/transfer"
    (json_kwargs
       (transfer_data sender_public_key receiver token_address amount)).

Definition create (wallet_addresses mint_pubkey config amounts : pyval)
    : M pyval :=
  FurySDK.request net "POST" "/api/tokens/create"
    (json_kwargs
       (create_data wallet_addresses mint_pubkey config amounts)).

Definition burn (wallet_public_key token_address amount : pyval)
    : M pyval :=
  FurySDK.request net "POST" "/api/tokens/burn"
    (json_kwargs (burn_data wallet_public_key token_address amount)).

Definition cleaner
    (seller_address buyer_address token_address sell_percentage
       buy_percentage : pyval) : M pyval :=
  FurySDK.request net "POST" "/api/tokens/cleaner"
    (json_kwargs
       (cleaner_data seller_address buyer_address token_address
          sell_percentage buy_percentage)).

End Methods.

End TokensClient.

Module TransactionsClient.

(** The dictionary [data] of [send]; [use_rpc] defaults to [False]. *)
Definition send_data (transactions : pyval) (use_rpc : option pyval)
    : gmap string pyval :=
  let use_rpc := supplied_or (PBool false) use_rpc in
  <["transactions" := transactions]> (<["useRpc" := use_rpc]> ∅).

Definition send (net : Transport) (transactions : pyval)
    (use_rpc : option pyval) : M pyval :=
  FurySDK.request net "POST" "/api/transactions/send"
    (json_kwargs (send_data transactions use_rpc)).

End TransactionsClient.

Module AnalyticsClient.

Definition calculate_pnl_data (addresses : pyval)
    (token_address include_timestamp : option pyval) : gmap string pyval :=
  let token_address := supplied_or PNone token_address in
  let include_timestamp := supplied_or (PBool false) include_timestamp in
  let data : gmap string pyval := <["addresses" := addresses]> ∅ in
  let data := set_if_truthy "tokenAddress" token_address data in
  let data :=
    if truthy include_timestamp
    then <["options" := PDict (<["includeTimestamp" := PBool true]> ∅)]> data
    else data in
  data.

Definition calculate_pnl (net : Transport) (addresses : pyval)
    (token_address include_timestamp : option pyval) : M pyval :=
  FurySDK.request net "POST" "/api/analytics/pnl"
    (json_kwargs
       (calculate_pnl_data addresses token_address include_timestamp)).

End AnalyticsClient.

Module UtilitiesClient.

Definition generate_mint (net : Transport) : M pyval :=
  FurySDK.request net "GET" "/api/utilities/generate-mint" ∅.

End UtilitiesClient.

Module WalletsClient.

Definition distribute_data (sender recipients : pyval)
    : gmap string pyval :=
  <["sender" := sender]> (<["recipients" := recipients]> ∅).

(** The dictionary [data] of [consolidate]; [percentage] defaults to
    100. *)
Definition consolidate_data (source_addresses receiver_address : pyval)
    (percentage token_address : option pyval) : gmap string pyval :=
  let percentage := supplied_or (PInt 100) percentage in
  let token_address := supplied_or PNone token_address in
  let data : gmap string pyval :=
    <["sourceAddresses" := source_addresses]>
      (<["receiverAddress" := receiver_address]>
         (<["percentage" := percentage]> ∅)) in
  set_if_truthy "tokenAddress" token_address data.

Section Methods.
Context (net : Transport).

Definition distribute (sender recipients : pyval) : M pyval :=
  FurySDK.request net "POST" "/api/wallets/distribute"
    (json_kwargs (distribute_data sender recipients)).

Definition consolidate (source_addresses receiver_address : pyval)
    (percentage token_address : option pyval) : M pyval :=
  FurySDK.request net "POST" "/api/wallets/consolidate"
    (json_kwargs
       (consolidate_data source_addresses receiver_address percentage
          token_address)).

End Methods.

End WalletsClient.

(** ** The public surface of the domain clients *)

(** One constructor per public method of the five clients, with the
    arguments of that method. *)
Inductive client_call : Type :=
  | TokensBuy (wallet_addresses token_address sol_amount : pyval)
      (protocol affiliate_address affiliate_fee jito_tip_lamports
         slippage_bps : option pyval)
  | TokensSell (wallet_addresses token_address : pyval)
      (percentage protocol affiliate_address affiliate_fee jito_tip_lamports
         slippage_bps : option pyval)
  | TokensTransfer (sender_public_key receiver token_address amount : pyval)
  | TokensCreate (wallet_addresses mint_pubkey config amounts : pyval)
  | TokensBurn (wallet_public_key token_address amount : pyval)
  | TokensCleaner (seller_address buyer_address token_address sell_percentage
                     buy_percentage : pyval)
  | TransactionsSend (transactions : pyval) (use_rpc : option pyval)
  | AnalyticsCalculatePnl (addresses : pyval)
      (token_address include_timestamp : option pyval)
  | UtilitiesGenerateMint
  | WalletsDistribute (sender recipients : pyval)
  | WalletsConsolidate (source_addresses receiver_address : pyval)
      (percentage token_address : option pyval).

Definition invoke (net : Transport) (c : client_call) : M pyval :=
  match c with
  | TokensBuy wa ta sa p aa af jt sb => TokensClient.buy net wa ta sa p aa af jt sb
  | TokensSell wa ta pc p aa af jt sb => TokensClient.sell net wa ta pc p aa af jt sb
  | TokensTransfer s r t a => TokensClient.transfer net s r t a
  | TokensCreate wa mp cf am => TokensClient.create net wa mp cf am
  | TokensBurn wp ta am => TokensClient.burn net wp ta am
  | TokensCleaner sa ba ta sp bp => TokensClient.cleaner net sa ba ta sp bp
  | TransactionsSend txs rpc => TransactionsClient.send net txs rpc
  | AnalyticsCalculatePnl ad ta ts => AnalyticsClient.calculate_pnl net ad ta ts
  | UtilitiesGenerateMint => UtilitiesClient.generate_mint net
  | WalletsDistribute s rs => WalletsClient.distribute net s rs
  | WalletsConsolidate sa ra pc ta => WalletsClient.consolidate net sa ra pc ta
  end.

(** The calls a computation adds to the wire, and the JSON body of a call. *)
Definition sent (m : M pyval) (w : World) (calls : list HttpCall) : Prop :=
  wire (snd (m w)) = (wire w ++ calls)%list.

Definition json_body (c : HttpCall) : option (gmap string pyval) :=
  match call_kwargs c !! "json" with
  | Some (PDict body) => Some body
  | _ => None
  end.

(** [m], run in [w], makes exactly one call, whose JSON body has no key
    [key]. *)
Definition omits (m : M pyval) (w : World) (key : string) : Prop :=
  exists c body,
    sent m w [c] /\ json_body c = Some body /\ body !! key = None.

(** An argument that is left out or falsy: the test [if value:] fails on the
    value the parameter then has. *)
Definition unset (default : pyval) (arg : option pyval) : Prop :=
  truthy (supplied_or default arg) = false.

(** ** Sample data for the closed instances *)

Module Sample.

Definition fresh : Session := {| headers := ∅ |}.

Definition world : World :=
  {| sdk := FurySDK.init fresh "https://api.fury.bot/" None; wire := [] |}.

(** A server that answers every call with status 200 and the empty JSON
    object. *)
Definition net_ok : Transport :=
  fun _ call =>
    Responded
      {| Response.status_code := 200;
         Response.reason := "OK";
         Response.url := call_url call;
         Response.text := "{}";
         Response.json := Decoded (PDict ∅) |}.

(** A server that answers every call with status [status] and an HTML
    page. *)
Definition html_page : string := "<html>Internal Server Error</html>".

Definition net_html (status : Z) (reason : string) : Transport :=
  fun _ call =>
    Responded
      {| Response.status_code := status;
         Response.reason := reason;
         Response.url := call_url call;
         Response.text := html_page;
         Response.json :=
           Undecodable "Expecting value: line 1 column 1 (char 0)" |}.

(** A server that answers every call with status [status] and the JSON
    document [doc]. *)
Definition net_json (status : Z) (reason text : string) (doc : pyval)
    : Transport :=
  fun _ call =>
    Responded
      {| Response.status_code := status;
         Response.reason := reason;
         Response.url := call_url call;
         Response.text := text;
         Response.json := Decoded doc |}.

Definition insufficient : pyval :=
  PDict {["message" := PStr "insufficient balance"]}.

Definition wallets : pyval :=
  PList [PStr "FuRytmqsoo4mKQAhNXoB64JD4SsiVqxYkUKC6i1VaBot"].
Definition token : pyval :=
  PStr "Bq5nFQ82jBYcFKRzUSximpCmCg5t8L8tVMqsn612pump".
(** 1.5 *)
Definition sol_amount : pyval := PFloat (S754_finite false 3 (-1)).

End Sample.

(** ** fury/models.py: the data classes *)

(** An attribute annotated [Optional[str]] as a Python value. *)
Definition opt_str (o : option string) : pyval :=
  match o with
  | Some s => PStr s
  | None => PNone
  end.

(** The text sent for a link attribute: the link, or the empty string when
    there is none. *)
Definition link_text (o : option string) : string :=
  match o with
  | Some s => s
  | None => EmptyString
  end.

Module TokenMetadata.

Record t : Type := mk {
  name : string;
  symbol : string;
  description : string;
  file : string;
  telegram : option string;
  twitter : option string;
  website : option string
}.

End TokenMetadata.

(** The float literal [0.1]: the double nearest to one tenth. *)
Definition one_tenth : spec_float :=
  S754_finite false 7205759403792794 (-56).

Module TokenCreationConfig.

Record t : Type := mk {
  metadata : TokenMetadata.t;
  default_sol_amount : spec_float
}.

(** [TokenCreationConfig(metadata, default_sol_amount=0.1)] *)
Definition init (metadata : TokenMetadata.t)
    (default_sol_amount : option spec_float) : t :=
  {| metadata := metadata;
     default_sol_amount :=
       match default_sol_amount with
       | Some f => f
       | None => one_tenth
       end |}.

(** [TokenCreationConfig.to_dict] *)
Definition to_dict (self : t) : gmap string pyval :=
  {["tokenCreation" :=
      PDict
        (<["metadata" :=
             PDict
               (<["name" := PStr (TokenMetadata.name (metadata self))]>
                  (<["symbol" := PStr (TokenMetadata.symbol (metadata self))]>
                     (<["description" :=
                          PStr (TokenMetadata.description (metadata self))]>
                        (<["file" := PStr (TokenMetadata.file (metadata self))]>
                           (<["telegram" :=
                                py_or (opt_str (TokenMetadata.telegram
                                                  (metadata self)))
                                      (PStr EmptyString)]>
                              (<["twitter" :=
                                   py_or (opt_str (TokenMetadata.twitter
                                                     (metadata self)))
                                         (PStr EmptyString)]>
                                 (<["website" :=
                                      py_or (opt_str (TokenMetadata.website
                                                        (metadata self)))
                                            (PStr EmptyString)]>
                                    ∅)))))))]>
           (<["defaultSolAmount" := PFloat (default_sol_amount self)]> ∅))]}.

End TokenCreationConfig.

Module Recipient.

Record t : Type := mk {
  address : string;
  amount : string
}.

(** [Recipient.to_dict] *)
Definition to_dict (self : t) : gmap string pyval :=
  <["address" := PStr (address self)]>
    (<["amount" := PStr (amount self)]> ∅).

End Recipient.

(** [create_token_config(metadata, default_sol_amount=0.1)] *)
Definition create_token_config (metadata : TokenMetadata.t)
    (default_sol_amount : option spec_float) : gmap string pyval :=
  TokenCreationConfig.to_dict
    (TokenCreationConfig.init metadata
       (Some (match default_sol_amount with
              | Some f => f
              | None => one_tenth
              end))).

(** ** fury/exceptions.py: the text of an API error *)

(** [str(v)] for the values whose text does not depend on the [repr] of
    floats and containers; [None] for those. *)
Definition py_str (v : pyval) : option string :=
  match v with
  | PNone => Some "None"
  | PBool true => Some "True"
  | PBool false => Some "False"
  | PInt z => Some (pretty z)
  | PStr s => Some s
  | PFloat _ | PList _ | PDict _ => None
  end.

(** [str(o)]; a response object prints as [<Response [status]>]. *)
Definition obj_str (o : pyobj) : option string :=
  match o with
  | OVal v => py_str v
  | OResponse r => Some ("<Response [" ++ pretty (Response.status_code r) ++ "]>")
  end.

(** [FuryAPIError.__str__] on an error with the given attributes;
    [super().__str__()] is the text of the one argument [message]. *)
Definition FuryAPIError_str (status_code : pyobj) (message : pyval)
    : option string :=
  match py_str message with
  | None => None
  | Some text =>
      if obj_truthy status_code then
        match obj_str status_code with
        | Some code => Some ("API Error (" ++ code ++ "): " ++ text)
        | None => None
        end
      else Some ("API Error: " ++ text)
  end.

(** [str(e)] for an exception that left the SDK. *)
Definition exn_str (e : exn) : option string :=
  match e with
  | FuryAPIError status_code message _ => FuryAPIError_str status_code message
  | ValidationError message | ValueError message | AttributeError message =>
      Some message
  end.

(** ** Vocabulary for the properties of request bodies *)

(** [m], run in [w], makes exactly one call, whose JSON body has the value
    [v] under [key]. *)
Definition carries (m : M pyval) (w : World) (key : string) (v : pyval)
    : Prop :=
  exists c body,
    sent m w [c] /\ json_body c = Some body /\ body !! key = Some v.

(** [m], run in [w], makes exactly one call, whose JSON body has exactly the
    keys [keys]. *)
Definition sends_keys (m : M pyval) (w : World) (keys : gset string) : Prop :=
  exists c body,
    sent m w [c] /\ json_body c = Some body /\ dom body = keys.

(** The dictionary found by a lookup, when there is one. *)
Definition as_dict (found : option pyval) : gmap string pyval :=
  match found with
  | Some (PDict d) => d
  | _ => ∅
  end.

(** [m], run in [w], makes exactly one call, whose JSON body has every key
    of [required] and no key outside [allowed]. *)
Definition keys_between (m : M pyval) (w : World)
    (required allowed : gset string) : Prop :=
  exists c body,
    sent m w [c] /\ json_body c = Some body /\
    (required ⊆ dom body) /\ (dom body ⊆ allowed).

(** An answer of the transport on which the exception handler cannot fail:
    a response that reaches the handler has a body that is a JSON object or
    is not JSON at all. *)
Definition object_or_undecodable (r : Response.t) : bool :=
  match Response.json r with
  | Decoded (PDict _) => true
  | Decoded _ => false
  | Undecodable _ => true
  end.

Definition handler_safe (answer : transport_outcome) : bool :=
  match answer with
  | Responded r =>
      match Response.raise_for_status r with
      | Some _ => object_or_undecodable r
      | None => true
      end
  | Failed e =>
      match re_response e with
      | Some r => object_or_undecodable r
      | None => true
      end
  end.

(** * Properties *)

(** ** Strings *)

Lemma rstrip_replicate (c : ascii) (n : nat) :
  PyStr.rstrip (String c EmptyString) (PyStr.replicate n c) = EmptyString.
Proof.
  induction n as [|n IH]; simpl; [reflexivity|].
  rewrite IH. now rewrite Ascii.eqb_refl.
Qed.

(** Stripping removes a run of trailing separators and nothing else, when
    what precedes the run does not itself end with the separator. *)
Lemma rstrip_app_replicate (c : ascii) (b : string) (n : nat) :
  PyStr.ends_with c b = false ->
  PyStr.rstrip (String c EmptyString) (b ++ PyStr.replicate n c) = b.
Proof.
  induction b as [|d b IH]; intros Hend.
  - apply rstrip_replicate.
  - destruct b as [|e b].
    + cbn [PyStr.ends_with] in Hend.
      change (String d EmptyString ++ PyStr.replicate n c)
        with (String d (PyStr.replicate n c)).
      cbn [PyStr.rstrip].
      rewrite rstrip_replicate. cbn [PyStr.mem].
      rewrite Hend. reflexivity.
    + change (PyStr.ends_with c (String d (String e b)))
        with (PyStr.ends_with c (String e b)) in Hend.
      specialize (IH Hend).
      change ((String d (String e b) ++ PyStr.replicate n c))
        with (String d (String e b ++ PyStr.replicate n c)).
      cbn [PyStr.rstrip]. cbn [PyStr.rstrip] in IH.
      now rewrite IH.
Qed.

Lemma is_value_In (x : string) :
  Protocol.is_value x = true <-> In x Protocol.values.
Proof.
  unfold Protocol.is_value. rewrite existsb_exists. split.
  - intros (y & Hy & Heq). apply String.eqb_eq in Heq. now subst.
  - intros Hin. exists x. split; [assumption|apply String.eqb_refl].
Qed.

(** ** The dispatcher *)

Section DispatcherFacts.
Context (net : Transport).

(** The exception handler raises and touches nothing. *)
Lemma on_request_exception_world (e : RequestException) (w : World) :
  snd (FurySDK.on_request_exception e w) = w.
Proof.
  unfold FurySDK.on_request_exception.
  destruct (re_response e) as [r|]; [|reflexivity].
  destruct (Response.json r) as [error_data|why]; [|reflexivity].
  destruct (py_get error_data "message" (PStr (re_str e))); reflexivity.
Qed.

Lemma on_request_exception_raises (e : RequestException) (w : World) :
  exists err, fst (FurySDK.on_request_exception e w) = Raised err.
Proof.
  unfold FurySDK.on_request_exception.
  destruct (re_response e) as [r|]; [|eexists; reflexivity].
  destruct (Response.json r) as [error_data|why]; [|eexists; reflexivity].
  destruct (py_get error_data "message" (PStr (re_str e)));
    eexists; reflexivity.
Qed.

(** What a call of [request] leaves behind: the same SDK object and one more
    call on the wire, to the base URL followed by the endpoint. *)
Lemma request_world (method endpoint : string) (kwargs : gmap string pyval)
    (w : World) :
  snd (FurySDK.request net method endpoint kwargs w) =
    {| sdk := sdk w;
       wire := wire w ++ [ {| call_method := method;
                              call_url := base_url (sdk w) ++ endpoint;
                              call_kwargs := kwargs |} ] |}.
Proof.
  unfold FurySDK.request, bind, get_self, session_request.
  cbn [sdk wire].
  destruct (net _ _) as [r|e].
  - destruct (Response.raise_for_status r) as [msg|].
    + apply on_request_exception_world.
    + destruct (Response.json r) as [v|why]; [reflexivity|].
      apply on_request_exception_world.
  - apply on_request_exception_world.
Qed.

(** The result of [request] when the server answers with an error status. *)
Lemma request_error_status (method endpoint : string)
    (kwargs : gmap string pyval) (w : World) (r : Response.t) (msg : string) :
  net (_session (sdk w))
      {| call_method := method;
         call_url := base_url (sdk w) ++ endpoint;
         call_kwargs := kwargs |} = Responded r ->
  Response.raise_for_status r = Some msg ->
  fst (FurySDK.request net method endpoint kwargs w) =
    fst (FurySDK.on_request_exception
           {| re_str := msg; re_response := Some r |} w).
Proof.
  intros Hnet Hstatus.
  unfold FurySDK.request, bind, get_self, session_request.
  cbn [sdk wire]. rewrite Hnet, Hstatus.
  unfold FurySDK.on_request_exception. cbn [re_response re_str].
  destruct (Response.json r) as [error_data|why]; [|reflexivity].
  destruct (py_get error_data "message" (PStr msg)); reflexivity.
Qed.

End DispatcherFacts.

(** Every public method of a client is one call of [request]. *)
Lemma invoke_is_request (net : Transport) (c : client_call) :
  exists method endpoint kwargs,
    invoke net c = FurySDK.request net method endpoint kwargs.
Proof. destruct c; do 3 eexists; reflexivity. Qed.

Lemma invoke_world (net : Transport) (c : client_call) (w : World) :
  sdk (snd (invoke net c w)) = sdk w /\
  exists call, wire (snd (invoke net c w)) = (wire w ++ [call])%list.
Proof.
  destruct (invoke_is_request net c) as (method & endpoint & kwargs & ->).
  rewrite request_world. split; [reflexivity|eexists; reflexivity].
Qed.

(** ** Protocol names *)

(** C2. [Protocol.validate] succeeds on every name whose lower-case form is
    one of raydium, jupiter, pumpfun, moonshot, pumpswap, auto, whatever the
    casing of the input, and returns that lower-case form; on every name
    whose lower-case form is none of the six it raises an error (a
    [ValueError]). *)
Theorem Protocol_validate_accepts_the_six_names (protocol : string) :
  (In (PyStr.lower protocol)
      ["raydium"; "jupiter"; "pumpfun"; "moonshot"; "pumpswap"; "auto"] ->
   Protocol.validate protocol = Returned (PyStr.lower protocol)) /\
  (~ In (PyStr.lower protocol)
        ["raydium"; "jupiter"; "pumpfun"; "moonshot"; "pumpswap"; "auto"] ->
   exists msg, Protocol.validate protocol = Raised (ValueError msg)).
Proof.
  unfold Protocol.validate.
  destruct (Protocol.is_value (PyStr.lower protocol)) eqn:Hmem; cbn [negb].
  - split; [reflexivity|].
    intros Hout. apply is_value_In in Hmem. contradiction.
  - split; [|intros _; eexists; reflexivity].
    intros Hin. apply is_value_In in Hin. congruence.
Qed.

Lemma Protocol_validate_accepts_the_six_names_witness :
  Protocol.validate "Jupiter" = Returned "jupiter" /\
  Protocol.validate "PUMPFUN" = Returned "pumpfun" /\
  Protocol.validate "AUTO" = Returned "auto" /\
  exists msg, Protocol.validate "invalid" = Raised (ValueError msg).
Proof.
  split; [|split; [|split]].
  - apply (proj1 (Protocol_validate_accepts_the_six_names "Jupiter")).
    vm_compute. auto.
  - apply (proj1 (Protocol_validate_accepts_the_six_names "PUMPFUN")).
    vm_compute. auto.
  - apply (proj1 (Protocol_validate_accepts_the_six_names "AUTO")).
    vm_compute. auto 7.
  - apply (proj2 (Protocol_validate_accepts_the_six_names "invalid")).
    vm_compute. intros [H|[H|[H|[H|[H|[H|[]]]]]]]; discriminate H.
Defined.

(** ** URLs *)

(** C5. Whatever number of trailing slashes the base URL given to the
    constructor has (none, one, or more), a call of [request] with an
    endpoint that begins with a slash goes to the base URL without its
    trailing slashes, followed by that one slash and the rest of the
    endpoint: the separator is neither doubled nor missing. *)
Theorem request_url_has_one_separator
    (net : Transport) (fresh : Session) (api_key : option string)
    (b : string) (n : nat) (method rest : string)
    (kwargs : gmap string pyval) (calls : list HttpCall) :
  PyStr.ends_with "/" b = false ->
  wire (snd (FurySDK.request net method (String "/" rest) kwargs
               {| sdk := FurySDK.init fresh (b ++ PyStr.replicate n "/") api_key;
                  wire := calls |})) =
    (calls ++ [ {| call_method := method;
                   call_url := b ++ "/" ++ rest;
                   call_kwargs := kwargs |} ])%list.
Proof.
  intros Hb. rewrite request_world. cbn [wire sdk FurySDK.init base_url].
  now rewrite rstrip_app_replicate.
Qed.

Lemma request_url_has_one_separator_witness :
  wire (snd (FurySDK.request Sample.net_ok "GET" "/health" ∅
               {| sdk := FurySDK.init Sample.fresh "https://api.fury.bot/" None;
                  wire := [] |})) =
    [ {| call_method := "GET";
         call_url := "https://api.fury.bot/health";
         call_kwargs := ∅ |} ] /\
  wire (snd (FurySDK.request Sample.net_ok "GET" "/health" ∅
               {| sdk := FurySDK.init Sample.fresh "https://api.fury.bot" None;
                  wire := [] |})) =
    [ {| call_method := "GET";
         call_url := "https://api.fury.bot/health";
         call_kwargs := ∅ |} ].
Proof.
  split.
  - apply (request_url_has_one_separator Sample.net_ok Sample.fresh None
             "https://api.fury.bot" 1 "GET" "health" ∅ []).
    reflexivity.
  - apply (request_url_has_one_separator Sample.net_ok Sample.fresh None
             "https://api.fury.bot" 0 "GET" "health" ∅ []).
    reflexivity.
Defined.

(** ** Error normalisation *)

(** C4. When the server answers with status 400 and the JSON body
    [{"message": "insufficient balance"}], [request] raises an API error
    with status code 400, message "insufficient balance" and, as payload,
    the whole decoded body. *)
Theorem request_status_400_json_body
    (net : Transport) (method endpoint : string) (kwargs : gmap string pyval)
    (w : World) (r : Response.t) :
  net (_session (sdk w))
      {| call_method := method;
         call_url := base_url (sdk w) ++ endpoint;
         call_kwargs := kwargs |} = Responded r ->
  Response.status_code r = 400%Z ->
  Response.json r =
    Decoded (PDict {["message" := PStr "insufficient balance"]}) ->
  fst (FurySDK.request net method endpoint kwargs w) =
    Raised (FuryAPIError (OVal (PInt 400)) (PStr "insufficient balance")
              (PDict {["message" := PStr "insufficient balance"]})).
Proof.
  intros Hnet Hstatus Hjson.
  rewrite (request_error_status net method endpoint kwargs w r
             ("400 Client Error: " ++ Response.reason r ++ " for url: "
                ++ Response.url r) Hnet).
  - unfold FurySDK.on_request_exception. cbn [re_response re_str].
    rewrite Hjson, Hstatus. reflexivity.
  - unfold Response.raise_for_status. rewrite Hstatus. reflexivity.
Qed.

Lemma request_status_400_json_body_witness :
  fst (TokensClient.buy
         (Sample.net_json 400 "Bad Request" "(body)" Sample.insufficient)
         Sample.wallets Sample.token Sample.sol_amount
         None None None None None Sample.world) =
    Raised (FuryAPIError (OVal (PInt 400)) (PStr "insufficient balance")
              Sample.insufficient).
Proof.
  apply (request_status_400_json_body
           (Sample.net_json 400 "Bad Request" "(body)" Sample.insufficient)
           "POST" "/api/tokens/buy" _ Sample.world
           {| Response.status_code := 400;
              Response.reason := "Bad Request";
              Response.url := "https://api.fury.bot/api/tokens/buy";
              Response.text := "(body)";
              Response.json := Decoded Sample.insufficient |});
    reflexivity.
Defined.

(** C3, as the code has it. When the server answers with status 500 and a
    body that is not decodable JSON, [request] raises an API error whose
    message is the text of the transport error, "500 Server Error: <reason>
    for url: <url>", and whose payload is empty. The message is not the raw
    text of the response. *)
Theorem request_status_500_undecodable_body
    (net : Transport) (method endpoint : string) (kwargs : gmap string pyval)
    (w : World) (r : Response.t) (why : string) :
  net (_session (sdk w))
      {| call_method := method;
         call_url := base_url (sdk w) ++ endpoint;
         call_kwargs := kwargs |} = Responded r ->
  Response.status_code r = 500%Z ->
  Response.json r = Undecodable why ->
  exists status_code,
    fst (FurySDK.request net method endpoint kwargs w) =
      Raised (FuryAPIError status_code
                (PStr ("500 Server Error: " ++ Response.reason r
                         ++ " for url: " ++ Response.url r))
                (PDict ∅)).
Proof.
  intros Hnet Hstatus Hjson.
  rewrite (request_error_status net method endpoint kwargs w r
             ("500 Server Error: " ++ Response.reason r ++ " for url: "
                ++ Response.url r) Hnet).
  - unfold FurySDK.on_request_exception. cbn [re_response re_str].
    rewrite Hjson. eexists. reflexivity.
  - unfold Response.raise_for_status. rewrite Hstatus. reflexivity.
Qed.

Lemma request_status_500_undecodable_body_witness :
  exists status_code,
    fst (FurySDK.request (Sample.net_html 500 "Internal Server Error")
           "GET" "/health" ∅ Sample.world) =
      Raised (FuryAPIError status_code
                (PStr "500 Server Error: Internal Server Error for url: https://api.fury.bot/health")
                (PDict ∅)).
Proof.
  apply (request_status_500_undecodable_body
           (Sample.net_html 500 "Internal Server Error")
           "GET" "/health" ∅ Sample.world
           {| Response.status_code := 500;
              Response.reason := "Internal Server Error";
              Response.url := "https://api.fury.bot/health";
              Response.text := Sample.html_page;
              Response.json :=
                Undecodable "Expecting value: line 1 column 1 (char 0)" |}
           "Expecting value: line 1 column 1 (char 0)");
    reflexivity.
Defined.

(** C3 as stated fails: on a 500 answer whose body is an HTML page the
    message of the error is the transport error text, not the page, and the
    [status_code] attribute is the response object, not the number 500. *)
Lemma request_status_500_message_is_not_the_body :
  fst (FurySDK.request (Sample.net_html 500 "Internal Server Error")
         "GET" "/health" ∅ Sample.world) =
    Raised (FuryAPIError
              (OResponse
                 {| Response.status_code := 500;
                    Response.reason := "Internal Server Error";
                    Response.url := "https://api.fury.bot/health";
                    Response.text := Sample.html_page;
                    Response.json :=
                      Undecodable "Expecting value: line 1 column 1 (char 0)" |})
              (PStr "500 Server Error: Internal Server Error for url: https://api.fury.bot/health")
              (PDict ∅)) /\
  ~ (exists status_code,
       fst (FurySDK.request (Sample.net_html 500 "Internal Server Error")
              "GET" "/health" ∅ Sample.world) =
         Raised (FuryAPIError status_code (PStr Sample.html_page) (PDict ∅))).
Proof.
  assert (Heval :
    fst (FurySDK.request (Sample.net_html 500 "Internal Server Error")
           "GET" "/health" ∅ Sample.world) =
      Raised (FuryAPIError
                (OResponse
                   {| Response.status_code := 500;
                      Response.reason := "Internal Server Error";
                      Response.url := "https://api.fury.bot/health";
                      Response.text := Sample.html_page;
                      Response.json :=
                        Undecodable "Expecting value: line 1 column 1 (char 0)" |})
                (PStr "500 Server Error: Internal Server Error for url: https://api.fury.bot/health")
                (PDict ∅))) by reflexivity.
  split; [exact Heval|].
  intros [status_code Hclaim]. rewrite Heval in Hclaim.
  discriminate Hclaim.
Qed.

(** ** Request bodies *)

Lemma set_if_truthy_falsy (key : string) (value : pyval)
    (data : gmap string pyval) :
  truthy value = false -> set_if_truthy key value data = data.
Proof. unfold set_if_truthy. now intros ->. Qed.

Lemma lookup_set_if_truthy_ne (key key' : string) (value : pyval)
    (data : gmap string pyval) :
  key <> key' -> set_if_truthy key value data !! key' = data !! key'.
Proof.
  intros Hne. unfold set_if_truthy.
  destruct (truthy value); [now apply lookup_insert_ne|reflexivity].
Qed.

(** A key that no branch writes is not in the dictionary. *)
Ltac absent_key :=
  repeat first
    [ rewrite set_if_truthy_falsy by assumption
    | rewrite lookup_set_if_truthy_ne by discriminate
    | rewrite lookup_insert_ne by discriminate ];
  apply lookup_empty.

Section Bodies.
Context (net : Transport).

Lemma request_json_sent (endpoint : string) (data : gmap string pyval)
    (w : World) :
  exists c,
    sent (FurySDK.request net "POST" endpoint (json_kwargs data)) w [c] /\
    call_method c = "POST" /\
    call_url c = base_url (sdk w) ++ endpoint /\
    json_body c = Some data.
Proof.
  eexists. unfold sent. rewrite request_world. cbn [wire].
  split; [reflexivity|]. split; [reflexivity|]. split; [reflexivity|].
  unfold json_body, json_kwargs. cbn [call_kwargs].
  now rewrite lookup_singleton_eq.
Qed.

Lemma request_json_omits (endpoint : string) (data : gmap string pyval)
    (w : World) (key : string) :
  data !! key = None ->
  omits (FurySDK.request net "POST" endpoint (json_kwargs data)) w key.
Proof.
  intros Hkey.
  destruct (request_json_sent endpoint data w) as (c & Hsent & _ & _ & Hbody).
  now exists c, data.
Qed.

End Bodies.

Section OptionalFields.
Context (net : Transport) (w : World).

Lemma buy_omits (wa ta sa : pyval) (p aa af jt sb : option pyval) :
  (unset PNone aa ->
   omits (TokensClient.buy net wa ta sa p aa af jt sb) w "affiliateAddress") /\
  (unset PNone af ->
   omits (TokensClient.buy net wa ta sa p aa af jt sb) w "affiliateFee") /\
  (unset PNone jt ->
   omits (TokensClient.buy net wa ta sa p aa af jt sb) w "jitoTipLamports") /\
  (unset PNone sb ->
   omits (TokensClient.buy net wa ta sa p aa af jt sb) w "slippageBps").
Proof.
  unfold unset.
  repeat split; intros Hunset; apply request_json_omits;
    unfold TokensClient.buy_data; cbv zeta; absent_key.
Qed.

Lemma sell_omits (wa ta : pyval) (pc p aa af jt sb : option pyval) :
  (unset PNone aa ->
   omits (TokensClient.sell net wa ta pc p aa af jt sb) w "affiliateAddress") /\
  (unset PNone af ->
   omits (TokensClient.sell net wa ta pc p aa af jt sb) w "affiliateFee") /\
  (unset PNone jt ->
   omits (TokensClient.sell net wa ta pc p aa af jt sb) w "jitoTipLamports") /\
  (unset PNone sb ->
   omits (TokensClient.sell net wa ta pc p aa af jt sb) w "slippageBps").
Proof.
  unfold unset.
  repeat split; intros Hunset; apply request_json_omits;
    unfold TokensClient.sell_data; cbv zeta; absent_key.
Qed.

Lemma calculate_pnl_omits (ad : pyval) (ta ts : option pyval) :
  (unset PNone ta ->
   omits (AnalyticsClient.calculate_pnl net ad ta ts) w "tokenAddress") /\
  (unset (PBool false) ts ->
   omits (AnalyticsClient.calculate_pnl net ad ta ts) w "options").
Proof.
  unfold unset.
  split; intros Hunset; apply request_json_omits;
    unfold AnalyticsClient.calculate_pnl_data; cbv zeta.
  - destruct (truthy (supplied_or (PBool false) ts));
      [rewrite lookup_insert_ne by discriminate|]; absent_key.
  - rewrite Hunset. absent_key.
Qed.

Lemma consolidate_omits (sa ra : pyval) (pc ta : option pyval) :
  unset PNone ta ->
  omits (WalletsClient.consolidate net sa ra pc ta) w "tokenAddress".
Proof.
  unfold unset. intros Hunset. apply request_json_omits.
  unfold WalletsClient.consolidate_data; cbv zeta. absent_key.
Qed.

End OptionalFields.

(** C6. An optional parameter that the caller does not supply leaves no key
    in the JSON body of the one request the method makes: the four optional
    fields of [tokens.buy] and of [tokens.sell], [tokenAddress] and
    [options] of [analytics.calculate_pnl], and [tokenAddress] of
    [wallets.consolidate] are absent, not present with a null value,
    whatever the other arguments are. *)
Theorem optional_fields_not_supplied_are_omitted
    (net : Transport) (w : World)
    (wa ta sa ad ra : pyval) (pc p aa af jt sb ts tk : option pyval) :
  omits (TokensClient.buy net wa ta sa p None af jt sb) w "affiliateAddress" /\
  omits (TokensClient.buy net wa ta sa p aa None jt sb) w "affiliateFee" /\
  omits (TokensClient.buy net wa ta sa p aa af None sb) w "jitoTipLamports" /\
  omits (TokensClient.buy net wa ta sa p aa af jt None) w "slippageBps" /\
  omits (TokensClient.sell net wa ta pc p None af jt sb) w "affiliateAddress" /\
  omits (TokensClient.sell net wa ta pc p aa None jt sb) w "affiliateFee" /\
  omits (TokensClient.sell net wa ta pc p aa af None sb) w "jitoTipLamports" /\
  omits (TokensClient.sell net wa ta pc p aa af jt None) w "slippageBps" /\
  omits (AnalyticsClient.calculate_pnl net ad None ts) w "tokenAddress" /\
  omits (AnalyticsClient.calculate_pnl net ad tk None) w "options" /\
  omits (WalletsClient.consolidate net wa ra pc None) w "tokenAddress".
Proof.
  repeat apply conj.
  - now apply buy_omits.
  - now apply buy_omits.
  - now apply buy_omits.
  - now apply buy_omits.
  - now apply sell_omits.
  - now apply sell_omits.
  - now apply sell_omits.
  - now apply sell_omits.
  - now apply calculate_pnl_omits.
  - now apply calculate_pnl_omits.
  - now apply consolidate_omits.
Qed.

(** C10. A falsy value ([0], the empty string, [False], [None], an empty
    list or dictionary) given for an optional parameter has the effect of
    leaving the parameter out: the key is absent from the JSON body of the
    request. This covers the four optional fields of [tokens.buy] and
    [tokens.sell], [tokenAddress] and [options] of
    [analytics.calculate_pnl], and [tokenAddress] of
    [wallets.consolidate]. *)
Theorem falsy_optional_fields_are_omitted
    (net : Transport) (w : World) (v : pyval)
    (wa ta sa ad ra : pyval) (pc p aa af jt sb ts tk : option pyval) :
  truthy v = false ->
  omits (TokensClient.buy net wa ta sa p (Some v) af jt sb) w "affiliateAddress" /\
  omits (TokensClient.buy net wa ta sa p aa (Some v) jt sb) w "affiliateFee" /\
  omits (TokensClient.buy net wa ta sa p aa af (Some v) sb) w "jitoTipLamports" /\
  omits (TokensClient.buy net wa ta sa p aa af jt (Some v)) w "slippageBps" /\
  omits (TokensClient.sell net wa ta pc p (Some v) af jt sb) w "affiliateAddress" /\
  omits (TokensClient.sell net wa ta pc p aa (Some v) jt sb) w "affiliateFee" /\
  omits (TokensClient.sell net wa ta pc p aa af (Some v) sb) w "jitoTipLamports" /\
  omits (TokensClient.sell net wa ta pc p aa af jt (Some v)) w "slippageBps" /\
  omits (AnalyticsClient.calculate_pnl net ad (Some v) ts) w "tokenAddress" /\
  omits (AnalyticsClient.calculate_pnl net ad tk (Some v)) w "options" /\
  omits (WalletsClient.consolidate net wa ra pc (Some v)) w "tokenAddress".
Proof.
  intros Hfalsy. repeat apply conj.
  - now apply buy_omits.
  - now apply buy_omits.
  - now apply buy_omits.
  - now apply buy_omits.
  - now apply sell_omits.
  - now apply sell_omits.
  - now apply sell_omits.
  - now apply sell_omits.
  - now apply calculate_pnl_omits.
  - now apply calculate_pnl_omits.
  - now apply consolidate_omits.
Qed.

Lemma falsy_optional_fields_are_omitted_witness :
  omits (TokensClient.buy Sample.net_ok Sample.wallets Sample.token
           Sample.sol_amount None None None (Some (PInt 0)) (Some (PInt 0)))
        Sample.world "jitoTipLamports" /\
  omits (TokensClient.buy Sample.net_ok Sample.wallets Sample.token
           Sample.sol_amount None None None (Some (PInt 0)) (Some (PInt 0)))
        Sample.world "slippageBps" /\
  omits (AnalyticsClient.calculate_pnl Sample.net_ok Sample.wallets None
           (Some (PBool false)))
        Sample.world "options".
Proof.
  split; [|split].
  - apply (falsy_optional_fields_are_omitted Sample.net_ok Sample.world
             (PInt 0) Sample.wallets Sample.token Sample.sol_amount
             Sample.wallets Sample.token None None None None
             (Some (PInt 0)) (Some (PInt 0)) None None).
    reflexivity.
  - apply (falsy_optional_fields_are_omitted Sample.net_ok Sample.world
             (PInt 0) Sample.wallets Sample.token Sample.sol_amount
             Sample.wallets Sample.token None None None None
             (Some (PInt 0)) (Some (PInt 0)) None None).
    reflexivity.
  - apply (falsy_optional_fields_are_omitted Sample.net_ok Sample.world
             (PBool false) Sample.wallets Sample.token Sample.sol_amount
             Sample.wallets Sample.token None None None None
             None None None None).
    reflexivity.
Defined.

(** ** Single endpoints *)

(** C8. [wallets.distribute] with sender "A" and the one recipient
    [{"address": "B", "amount": "10"}] makes exactly one call: a POST to
    the base URL followed by [/api/wallets/distribute], whose JSON body is
    [{"sender": "A", "recipients": [{"address": "B", "amount": "10"}]}]. *)
Theorem distribute_posts_sender_and_recipients (net : Transport) (w : World) :
  sent (WalletsClient.distribute net (PStr "A")
          (PList [PDict (<["address" := PStr "B"]>
                           (<["amount" := PStr "10"]> ∅))]))
       w
       [ {| call_method := "POST";
            call_url := base_url (sdk w) ++ "/api/wallets/distribute";
            call_kwargs :=
              {["json" :=
                  PDict (<["sender" := PStr "A"]>
                           (<["recipients" :=
                                PList [PDict (<["address" := PStr "B"]>
                                                (<["amount" := PStr "10"]> ∅))]]>
                              ∅))]} |} ].
Proof.
  unfold sent, WalletsClient.distribute. rewrite request_world. reflexivity.
Qed.

(** C1, as the code has it. [tokens.buy] does not validate its [protocol]
    argument: called with "invalid" it makes exactly one call, a POST to
    the base URL followed by [/api/tokens/buy] whose JSON body carries
    "invalid" under the key [protocol], and it ends as that call of the
    dispatcher ends. [Protocol.validate], which no client calls, is what
    rejects the name, with a [ValueError]. *)
Theorem buy_sends_an_invalid_protocol_unchecked
    (net : Transport) (w : World) (wa ta sa : pyval)
    (aa af jt sb : option pyval) :
  (exists c body,
     sent (TokensClient.buy net wa ta sa (Some (PStr "invalid")) aa af jt sb)
          w [c] /\
     call_method c = "POST" /\
     call_url c = base_url (sdk w) ++ "/api/tokens/buy" /\
     json_body c = Some body /\
     body !! "protocol" = Some (PStr "invalid") /\
     TokensClient.buy net wa ta sa (Some (PStr "invalid")) aa af jt sb w =
       FurySDK.request net "POST" "/api/tokens/buy" (json_kwargs body) w) /\
  (exists msg, Protocol.validate "invalid" = Raised (ValueError msg)).
Proof.
  split; [|eexists; reflexivity].
  destruct (request_json_sent net "/api/tokens/buy"
              (TokensClient.buy_data wa ta sa (Some (PStr "invalid"))
                 aa af jt sb) w)
    as (c & Hsent & Hmethod & Hurl & Hbody).
  exists c, (TokensClient.buy_data wa ta sa (Some (PStr "invalid")) aa af jt sb).
  repeat split; try assumption.
  unfold TokensClient.buy_data; cbv zeta.
  rewrite !lookup_set_if_truthy_ne by discriminate.
  rewrite !lookup_insert_ne by discriminate.
  apply lookup_insert_eq.
Qed.

(** C1 as stated fails: against a server that answers 200, [tokens.buy]
    with protocol "invalid" returns the decoded answer, and one call is on
    the wire; it neither raises nor stays away from the network. *)
Lemma buy_invalid_protocol_reaches_the_server :
  TokensClient.buy Sample.net_ok Sample.wallets Sample.token
    Sample.sol_amount (Some (PStr "invalid")) None None None None
    Sample.world =
    (Returned (PDict ∅),
     {| sdk := sdk Sample.world;
        wire :=
          [ {| call_method := "POST";
               call_url := "https://api.fury.bot/api/tokens/buy";
               call_kwargs :=
                 {["json" :=
                     PDict (<["walletAddresses" := Sample.wallets]>
                              (<["tokenAddress" := Sample.token]>
                                 (<["solAmount" := Sample.sol_amount]>
                                    (<["protocol" := PStr "invalid"]> ∅))))]}
            |} ] |}) /\
  ~ (exists e,
       fst (TokensClient.buy Sample.net_ok Sample.wallets Sample.token
              Sample.sol_amount (Some (PStr "invalid")) None None None None
              Sample.world) = Raised e /\
       wire (snd (TokensClient.buy Sample.net_ok Sample.wallets Sample.token
                    Sample.sol_amount (Some (PStr "invalid")) None None None
                    None Sample.world)) = []).
Proof.
  split; [reflexivity|].
  intros (e & Hraised & _). discriminate Hraised.
Qed.

(** ** The frame of a call *)

(** C9. A call of [request], and a call of any public method of a domain
    client, leaves the SDK object as it found it: the base URL, the API key
    and the session with its [Authorization] header are the ones stored at
    construction. *)
Theorem calls_leave_the_credential_context_unchanged
    (net : Transport) (w : World) :
  (forall method endpoint kwargs,
     let w' := snd (FurySDK.request net method endpoint kwargs w) in
     base_url (sdk w') = base_url (sdk w) /\
     api_key (sdk w') = api_key (sdk w) /\
     headers (_session (sdk w')) !! "Authorization" =
       headers (_session (sdk w)) !! "Authorization") /\
  (forall c : client_call,
     let w' := snd (invoke net c w) in
     base_url (sdk w') = base_url (sdk w) /\
     api_key (sdk w') = api_key (sdk w) /\
     headers (_session (sdk w')) !! "Authorization" =
       headers (_session (sdk w)) !! "Authorization").
Proof.
  split.
  - intros method endpoint kwargs w'. subst w'.
    rewrite request_world. cbn [sdk]. auto.
  - intros c w'. subst w'.
    destruct (invoke_world net c w) as [-> _]. auto.
Qed.

(** ** One request per call, and how it can end *)

(** Every public method of a client puts exactly one call on the wire, and it
    ends either by returning the decoded answer or by raising. *)
Lemma invoke_one_call (net : Transport) (c : client_call) (w : World) :
  exists call, sent (invoke net c) w [call].
Proof. apply invoke_world. Qed.

(** How the exception handler ends: with a typed API error, unless the
    exception carries a response whose body decodes to something that is not
    a dictionary; then the lookup of the message raises an
    [AttributeError]. *)
Lemma on_request_exception_outcome (e : RequestException) (w : World) :
  (exists err,
     fst (FurySDK.on_request_exception e w) = Raised err /\
     is_sdk_error err = true) \/
  (exists r doc msg,
     re_response e = Some r /\ Response.json r = Decoded doc /\
     (forall d, doc <> PDict d) /\
     fst (FurySDK.on_request_exception e w) = Raised (AttributeError msg)).
Proof.
  unfold FurySDK.on_request_exception.
  destruct (re_response e) as [r|] eqn:Hresp;
    [|left; eexists; split; reflexivity].
  destruct (Response.json r) as [doc|why] eqn:Hjson;
    [|left; eexists; split; reflexivity].
  destruct doc as [| | | | | |d];
    try (right; exists r; do 2 eexists;
         split; [reflexivity|];
         split; [exact Hjson|];
         split; [discriminate|reflexivity]).
  left. eexists. split; reflexivity.
Qed.

(** How [request] ends: it returns the decoded answer, raises a typed API
    error, or lets the [AttributeError] of the handler through. *)
Lemma request_outcome (net : Transport) (method endpoint : string)
    (kwargs : gmap string pyval) (w : World) :
  (exists v, fst (FurySDK.request net method endpoint kwargs w) = Returned v) \/
  (exists err,
     fst (FurySDK.request net method endpoint kwargs w) = Raised err /\
     is_sdk_error err = true) \/
  (exists msg,
     fst (FurySDK.request net method endpoint kwargs w) =
       Raised (AttributeError msg)).
Proof.
  unfold FurySDK.request, bind, get_self, session_request. cbn [sdk wire].
  set (w' := {| sdk := sdk w; wire := _ |}).
  assert (Hhandler : forall e,
    (exists err, fst (FurySDK.on_request_exception e w') = Raised err /\
                 is_sdk_error err = true) \/
    (exists msg, fst (FurySDK.on_request_exception e w') =
                   Raised (AttributeError msg))).
  { intros e.
    destruct (on_request_exception_outcome e w')
      as [Htyped|(r & doc & msg & _ & _ & _ & Hattr)];
      [left; exact Htyped|right; exists msg; exact Hattr]. }
  destruct (net _ _) as [r|e].
  - destruct (Response.raise_for_status r) as [msg|].
    + right. apply Hhandler.
    + destruct (Response.json r) as [v|why].
      * left. eexists. reflexivity.
      * right. apply Hhandler.
  - right. apply Hhandler.
Qed.

(** C7 fails on an error answer whose body is JSON but not an object. Here
    the server answers [tokens.buy] with status 400 and the JSON string
    "insufficient balance": one call is made, and what leaves the SDK is an
    [AttributeError], which is not one of its typed errors. *)
Theorem buy_error_body_not_an_object_raises_AttributeError :
  TokensClient.buy
    (Sample.net_json 400 "Bad Request" "(a JSON string)"
       (PStr "insufficient balance"))
    Sample.wallets Sample.token Sample.sol_amount None None None None None
    Sample.world =
    (Raised (AttributeError "'str' object has no attribute 'get'"),
     {| sdk := sdk Sample.world;
        wire :=
          [ {| call_method := "POST";
               call_url := "https://api.fury.bot/api/tokens/buy";
               call_kwargs :=
                 json_kwargs
                   (TokensClient.buy_data Sample.wallets Sample.token
                      Sample.sol_amount None None None None None) |} ] |}) /\
  is_sdk_error (AttributeError "'str' object has no attribute 'get'") = false.
Proof. split; reflexivity. Qed.

(** * Further properties of the dispatcher *)

Lemma raise_for_status_None (r : Response.t) :
  (Response.status_code r < 400 \/ 600 <= Response.status_code r)%Z ->
  Response.raise_for_status r = None.
Proof.
  intros Hrange. unfold Response.raise_for_status.
  destruct (400 <=? Response.status_code r)%Z eqn:H400;
    destruct (Response.status_code r <? 500)%Z eqn:H500;
    destruct (500 <=? Response.status_code r)%Z eqn:H500';
    destruct (Response.status_code r <? 600)%Z eqn:H600;
    cbn [andb]; try reflexivity; exfalso; lia.
Qed.

Lemma raise_for_status_Some (r : Response.t) (msg : string) :
  Response.raise_for_status r = Some msg ->
  (400 <= Response.status_code r < 600)%Z.
Proof.
  unfold Response.raise_for_status.
  destruct (400 <=? Response.status_code r)%Z eqn:H400;
    destruct (Response.status_code r <? 500)%Z eqn:H500;
    destruct (500 <=? Response.status_code r)%Z eqn:H500';
    destruct (Response.status_code r <? 600)%Z eqn:H600;
    cbn [andb]; intros Hmsg; try discriminate Hmsg; lia.
Qed.

Lemma py_or_dict (d : gmap string pyval) :
  py_or (PDict d) (PDict ∅) = PDict d.
Proof.
  unfold py_or, truthy. destruct (bool_decide (d = ∅)) eqn:Hempty; cbn [negb].
  - apply bool_decide_eq_true in Hempty. now subst.
  - reflexivity.
Qed.

(** X1. An answer whose status is below 400 (or not below 600) and whose body
    decodes is passed through: [request] returns the decoded document as it
    is, whatever JSON value it is, and leaves one call on the wire. *)
Theorem request_success_returns_the_document
    (net : Transport) (method endpoint : string) (kwargs : gmap string pyval)
    (w : World) (r : Response.t) (v : pyval) :
  net (_session (sdk w))
      {| call_method := method;
         call_url := base_url (sdk w) ++ endpoint;
         call_kwargs := kwargs |} = Responded r ->
  (Response.status_code r < 400 \/ 600 <= Response.status_code r)%Z ->
  Response.json r = Decoded v ->
  FurySDK.request net method endpoint kwargs w =
    (Returned v,
     {| sdk := sdk w;
        wire := wire w ++ [ {| call_method := method;
                               call_url := base_url (sdk w) ++ endpoint;
                               call_kwargs := kwargs |} ] |}).
Proof.
  intros Hnet Hstatus Hjson.
  unfold FurySDK.request, bind, get_self, session_request. cbn [sdk wire].
  rewrite Hnet, (raise_for_status_None r Hstatus), Hjson. reflexivity.
Qed.

Lemma request_success_returns_the_document_witness :
  FurySDK.request
    (Sample.net_json 201 "Created" "null" PNone) "GET" "/health" ∅
    Sample.world =
    (Returned PNone,
     {| sdk := sdk Sample.world;
        wire := [ {| call_method := "GET";
                     call_url := "https://api.fury.bot/health";
                     call_kwargs := ∅ |} ] |}).
Proof.
  apply (request_success_returns_the_document
           (Sample.net_json 201 "Created" "null" PNone)
           "GET" "/health" ∅ Sample.world
           {| Response.status_code := 201;
              Response.reason := "Created";
              Response.url := "https://api.fury.bot/health";
              Response.text := "null";
              Response.json := Decoded PNone |} PNone).
  - reflexivity.
  - left. reflexivity.
  - reflexivity.
Defined.

(** X2. When the session raises a request exception that carries no
    response (connection refused, timeout, invalid URL), [request] raises an
    API error whose status code is [None], whose message is the text of the
    exception and whose payload is the empty dictionary. *)
Theorem request_transport_failure_has_no_status
    (net : Transport) (method endpoint : string) (kwargs : gmap string pyval)
    (w : World) (e : RequestException) :
  net (_session (sdk w))
      {| call_method := method;
         call_url := base_url (sdk w) ++ endpoint;
         call_kwargs := kwargs |} = Failed e ->
  re_response e = None ->
  fst (FurySDK.request net method endpoint kwargs w) =
    Raised (FuryAPIError (OVal PNone) (PStr (re_str e)) (PDict ∅)).
Proof.
  intros Hnet Hnone.
  unfold FurySDK.request, bind, get_self, session_request. cbn [sdk wire].
  rewrite Hnet. unfold FurySDK.on_request_exception. rewrite Hnone.
  reflexivity.
Qed.

Lemma request_transport_failure_has_no_status_witness :
  fst (FurySDK.request
         (fun _ _ => Failed {| re_str := "Connection refused";
                               re_response := None |})
         "GET" "/health" ∅ Sample.world) =
    Raised (FuryAPIError (OVal PNone) (PStr "Connection refused") (PDict ∅)).
Proof.
  apply (request_transport_failure_has_no_status
           (fun _ _ => Failed {| re_str := "Connection refused";
                                 re_response := None |})
           "GET" "/health" ∅ Sample.world
           {| re_str := "Connection refused"; re_response := None |});
    reflexivity.
Defined.

(** X3. When the answer has an error status and its body is a JSON object,
    [request] raises an API error with the numeric status, with the value
    under [message] of the object as message, or the text of the HTTP error
    when the object has no such key, and with the whole object as payload
    (the empty object included). *)
Theorem request_error_with_json_object
    (net : Transport) (method endpoint : string) (kwargs : gmap string pyval)
    (w : World) (r : Response.t) (msg : string) (d : gmap string pyval) :
  net (_session (sdk w))
      {| call_method := method;
         call_url := base_url (sdk w) ++ endpoint;
         call_kwargs := kwargs |} = Responded r ->
  Response.raise_for_status r = Some msg ->
  Response.json r = Decoded (PDict d) ->
  fst (FurySDK.request net method endpoint kwargs w) =
    Raised (FuryAPIError (OVal (PInt (Response.status_code r)))
              (match d !! "message" with
               | Some m => m
               | None => PStr msg
               end)
              (PDict d)).
Proof.
  intros Hnet Hstatus Hjson.
  rewrite (request_error_status net method endpoint kwargs w r msg Hnet Hstatus).
  unfold FurySDK.on_request_exception. cbn [re_response re_str].
  rewrite Hjson. cbn [py_get]. unfold raise, FuryAPIError_init. cbn [fst].
  rewrite py_or_dict. reflexivity.
Qed.

Lemma request_error_with_json_object_witness :
  fst (FurySDK.request
         (Sample.net_json 404 "Not Found" "{}" (PDict ∅))
         "GET" "/health" ∅ Sample.world) =
    Raised (FuryAPIError (OVal (PInt 404))
              (PStr "404 Client Error: Not Found for url: https://api.fury.bot/health")
              (PDict ∅)).
Proof.
  exact (request_error_with_json_object
           (Sample.net_json 404 "Not Found" "{}" (PDict ∅))
           "GET" "/health" ∅ Sample.world
           {| Response.status_code := 404;
              Response.reason := "Not Found";
              Response.url := "https://api.fury.bot/health";
              Response.text := "{}";
              Response.json := Decoded (PDict ∅) |}
           "404 Client Error: Not Found for url: https://api.fury.bot/health"
           ∅ eq_refl eq_refl eq_refl).
Defined.

Lemma on_request_exception_classified (e : RequestException) (w : World) :
  if match re_response e with
     | Some r => object_or_undecodable r
     | None => true
     end
  then exists status_code message d,
         fst (FurySDK.on_request_exception e w) =
           Raised (FuryAPIError status_code message (PDict d))
  else exists msg,
         fst (FurySDK.on_request_exception e w) = Raised (AttributeError msg).
Proof.
  unfold FurySDK.on_request_exception, object_or_undecodable.
  destruct (re_response e) as [r|]; [|do 3 eexists; reflexivity].
  destruct (Response.json r) as [doc|why]; [|do 3 eexists; reflexivity].
  destruct doc; try (eexists; reflexivity).
  cbn [py_get]. unfold raise, FuryAPIError_init. cbn [fst].
  rewrite py_or_dict. do 3 eexists. reflexivity.
Qed.

(** X4. How a call of a client method ends is decided by the one answer of
    the transport. Unless that answer reaches the exception handler with a
    body that is JSON but not an object, the method returns the decoded
    document or raises an API error whose payload is a dictionary; in the
    remaining case it raises an [AttributeError]. In every case exactly one
    call was made. *)
Theorem client_call_outcome_by_answer
    (net : Transport) (c : client_call) (w : World) :
  exists call,
    sent (invoke net c) w [call] /\
    if handler_safe (net (_session (sdk w)) call)
    then (exists v, fst (invoke net c w) = Returned v) \/
         (exists status_code message d,
            fst (invoke net c w) =
              Raised (FuryAPIError status_code message (PDict d)))
    else exists msg, fst (invoke net c w) = Raised (AttributeError msg).
Proof.
  destruct (invoke_is_request net c) as (method & endpoint & kwargs & ->).
  exists {| call_method := method;
            call_url := base_url (sdk w) ++ endpoint;
            call_kwargs := kwargs |}.
  split; [unfold sent; now rewrite request_world|].
  unfold FurySDK.request, bind, get_self, session_request. cbn [sdk wire].
  set (w' := {| sdk := sdk w; wire := _ |}).
  unfold handler_safe.
  destruct (net _ _) as [r|e].
  - destruct (Response.raise_for_status r) as [msg|].
    + pose proof (on_request_exception_classified
                    {| re_str := msg; re_response := Some r |} w') as H.
      cbn [re_response] in H.
      destruct (object_or_undecodable r); [right|]; exact H.
    + destruct (Response.json r) as [v|why].
      * left. eexists. reflexivity.
      * right.
        exact (on_request_exception_classified
                 {| re_str := why; re_response := None |} w').
  - pose proof (on_request_exception_classified e w') as H.
    destruct (match re_response e with
              | Some r => object_or_undecodable r
              | None => true
              end); [right|]; exact H.
Qed.

(** X5. For an error answer whose body is a JSON object with a string under
    [message], the text of the raised error is
    "API Error (<status>): <message>". *)
Theorem error_text_shows_status_and_message
    (net : Transport) (method endpoint : string) (kwargs : gmap string pyval)
    (w : World) (r : Response.t) (msg m : string) (d : gmap string pyval) :
  net (_session (sdk w))
      {| call_method := method;
         call_url := base_url (sdk w) ++ endpoint;
         call_kwargs := kwargs |} = Responded r ->
  Response.raise_for_status r = Some msg ->
  Response.json r = Decoded (PDict d) ->
  d !! "message" = Some (PStr m) ->
  exists err,
    fst (FurySDK.request net method endpoint kwargs w) = Raised err /\
    exn_str err =
      Some ("API Error (" ++ pretty (Response.status_code r) ++ "): " ++ m).
Proof.
  intros Hnet Hstatus Hjson Hmessage.
  eexists. split.
  - rewrite (request_error_status net method endpoint kwargs w r msg Hnet
               Hstatus).
    unfold FurySDK.on_request_exception. cbn [re_response re_str].
    rewrite Hjson. cbn [py_get]. rewrite Hmessage.
    unfold raise, FuryAPIError_init. cbn [fst default_or_found].
    rewrite py_or_dict. reflexivity.
  - cbn [exn_str]. unfold FuryAPIError_str.
    cbn [py_str obj_truthy truthy obj_str].
    apply raise_for_status_Some in Hstatus.
    destruct (Response.status_code r =? 0)%Z eqn:Hzero;
      [apply Z.eqb_eq in Hzero; lia|reflexivity].
Qed.

Lemma error_text_shows_status_and_message_witness :
  exists err,
    fst (FurySDK.request
           (Sample.net_json 400 "Bad Request" "(body)" Sample.insufficient)
           "GET" "/health" ∅ Sample.world) = Raised err /\
    exn_str err = Some "API Error (400): insufficient balance".
Proof.
  exact (error_text_shows_status_and_message
           (Sample.net_json 400 "Bad Request" "(body)" Sample.insufficient)
           "GET" "/health" ∅ Sample.world
           {| Response.status_code := 400;
              Response.reason := "Bad Request";
              Response.url := "https://api.fury.bot/health";
              Response.text := "(body)";
              Response.json := Decoded Sample.insufficient |}
           "400 Client Error: Bad Request for url: https://api.fury.bot/health"
           "insufficient balance"
           {["message" := PStr "insufficient balance"]}
           eq_refl eq_refl eq_refl eq_refl).
Defined.

(** X6. For an error answer whose body is not JSON, the text of the raised
    error is "API Error: " followed by the text of the HTTP error: the
    status is not shown in parentheses, because the [status_code] attribute
    then holds the response object, which is falsy. *)
Theorem error_text_of_undecodable_body_hides_status
    (net : Transport) (method endpoint : string) (kwargs : gmap string pyval)
    (w : World) (r : Response.t) (msg why : string) :
  net (_session (sdk w))
      {| call_method := method;
         call_url := base_url (sdk w) ++ endpoint;
         call_kwargs := kwargs |} = Responded r ->
  Response.raise_for_status r = Some msg ->
  Response.json r = Undecodable why ->
  fst (FurySDK.request net method endpoint kwargs w) =
    Raised (FuryAPIError (OResponse r) (PStr msg) (PDict ∅)) /\
  exn_str (FuryAPIError (OResponse r) (PStr msg) (PDict ∅)) =
    Some ("API Error: " ++ msg).
Proof.
  intros Hnet Hstatus Hjson. split.
  - rewrite (request_error_status net method endpoint kwargs w r msg Hnet
               Hstatus).
    unfold FurySDK.on_request_exception. cbn [re_response re_str].
    rewrite Hjson. unfold raise, FuryAPIError_init, py_and. cbn [fst].
    cbn [obj_truthy]. unfold Response.ok. rewrite Hstatus. reflexivity.
  - cbn [exn_str]. unfold FuryAPIError_str. cbn [py_str obj_truthy].
    unfold Response.ok. rewrite Hstatus. reflexivity.
Qed.

Lemma error_text_of_undecodable_body_hides_status_witness :
  exn_str
    (FuryAPIError
       (OResponse
          {| Response.status_code := 502;
             Response.reason := "Bad Gateway";
             Response.url := "https://api.fury.bot/health";
             Response.text := Sample.html_page;
             Response.json :=
               Undecodable "Expecting value: line 1 column 1 (char 0)" |})
       (PStr "502 Server Error: Bad Gateway for url: https://api.fury.bot/health")
       (PDict ∅)) =
    Some "API Error: 502 Server Error: Bad Gateway for url: https://api.fury.bot/health".
Proof.
  exact (proj2 (error_text_of_undecodable_body_hides_status
                  (Sample.net_html 502 "Bad Gateway")
                  "GET" "/health" ∅ Sample.world
                  {| Response.status_code := 502;
                     Response.reason := "Bad Gateway";
                     Response.url := "https://api.fury.bot/health";
                     Response.text := Sample.html_page;
                     Response.json :=
                       Undecodable "Expecting value: line 1 column 1 (char 0)" |}
                  "502 Server Error: Bad Gateway for url: https://api.fury.bot/health"
                  "Expecting value: line 1 column 1 (char 0)"
                  eq_refl eq_refl eq_refl)).
Defined.

(** * Further properties of the constructor *)

Lemma mem_singleton (c d : ascii) :
  PyStr.mem d (String c EmptyString) = Ascii.eqb d c.
Proof. cbn [PyStr.mem]. now destruct (Ascii.eqb d c). Qed.

Lemma rstrip_no_trailing (c : ascii) (s : string) :
  PyStr.ends_with c (PyStr.rstrip (String c EmptyString) s) = false.
Proof.
  induction s as [|d s IH]; [reflexivity|].
  cbn [PyStr.rstrip].
  destruct (PyStr.rstrip (String c EmptyString) s) as [|e r'] eqn:Hr.
  - rewrite mem_singleton.
    destruct (Ascii.eqb d c) eqn:Hdc; [reflexivity|].
    cbn [PyStr.ends_with]. exact Hdc.
  - exact IH.
Qed.

Lemma rstrip_decompose (c : ascii) (s : string) :
  exists n,
    s = PyStr.rstrip (String c EmptyString) s ++ PyStr.replicate n c.
Proof.
  induction s as [|d s [n IH]]; [exists 0%nat; reflexivity|].
  cbn [PyStr.rstrip].
  destruct (PyStr.rstrip (String c EmptyString) s) as [|e r'] eqn:Hr.
  - rewrite mem_singleton.
    destruct (Ascii.eqb d c) eqn:Hdc.
    + apply Ascii.eqb_eq in Hdc. subst d.
      exists (S n). rewrite IH at 1. reflexivity.
    + exists n. rewrite IH at 1. reflexivity.
  - exists n. rewrite IH at 1. reflexivity.
Qed.

(** X7. The base URL stored by the constructor is the given one without its
    trailing slashes, and nothing else is removed: the stored URL does not
    end with a slash, and the given URL is the stored one followed by a run
    of slashes. *)
Theorem init_strips_exactly_the_trailing_slashes
    (fresh : Session) (url : string) (key : option string) :
  PyStr.ends_with "/" (base_url (FurySDK.init fresh url key)) = false /\
  exists n,
    url = base_url (FurySDK.init fresh url key) ++ PyStr.replicate n "/".
Proof.
  cbn [FurySDK.init base_url]. split.
  - apply rstrip_no_trailing.
  - apply rstrip_decompose.
Qed.



(** X9. On an SDK built by the constructor from a base URL with or without
    trailing slashes, every client method makes its one call with POST or
    GET to a URL that is the base, one slash, "api/" and a path. *)
Theorem client_calls_go_below_api
    (net : Transport) (fresh : Session) (key : option string)
    (b : string) (n : nat) (calls : list HttpCall) (c : client_call) :
  PyStr.ends_with "/" b = false ->
  exists call rest,
    sent (invoke net c)
         {| sdk := FurySDK.init fresh (b ++ PyStr.replicate n "/") key;
            wire := calls |}
         [call] /\
    call_url call = b ++ "/api/" ++ rest /\
    (call_method call = "POST" \/ call_method call = "GET").
Proof.
  intros Hb. unfold sent.
  destruct c; cbn [invoke];
    unfold TokensClient.buy, TokensClient.sell, TokensClient.transfer,
      TokensClient.create, TokensClient.burn, TokensClient.cleaner,
      TokensClient.buy, TransactionsClient.send,
      AnalyticsClient.calculate_pnl, UtilitiesClient.generate_mint,
      WalletsClient.distribute, WalletsClient.consolidate;
    rewrite request_world; cbn [wire sdk FurySDK.init base_url];
    rewrite (rstrip_app_replicate "/" b n Hb);
    eexists; eexists;
    (split; [reflexivity|]); cbn [call_url call_method];
    (split; [reflexivity|]); auto.
Qed.

Lemma client_calls_go_below_api_witness :
  exists call rest,
    sent (invoke Sample.net_ok UtilitiesGenerateMint)
         {| sdk := FurySDK.init Sample.fresh "https://api.fury.bot//" None;
            wire := [] |}
         [call] /\
    call_url call = "https://api.fury.bot" ++ "/api/" ++ rest /\
    (call_method call = "POST" \/ call_method call = "GET").
Proof.
  apply (client_calls_go_below_api Sample.net_ok Sample.fresh None
           "https://api.fury.bot" 2 [] UtilitiesGenerateMint).
  reflexivity.
Defined.

(** * Further properties of the request bodies *)

Lemma lookup_set_if_truthy_eq (key : string) (value : pyval)
    (data : gmap string pyval) :
  truthy value = true -> set_if_truthy key value data !! key = Some value.
Proof. unfold set_if_truthy. intros ->. apply lookup_insert_eq. Qed.

(** A key written by one statement and not overwritten later. *)
Ltac present_key :=
  repeat first
    [ rewrite lookup_set_if_truthy_ne by discriminate
    | rewrite lookup_insert_ne by discriminate ];
  first [ apply lookup_insert_eq
        | apply lookup_set_if_truthy_eq; assumption ].

Lemma request_json_carries (net : Transport) (endpoint : string)
    (data : gmap string pyval) (w : World) (key : string) (v : pyval) :
  data !! key = Some v ->
  carries (FurySDK.request net "POST" endpoint (json_kwargs data)) w key v.
Proof.
  intros Hkey.
  destruct (request_json_sent net endpoint data w) as (c & Hsent & _ & _ & Hbody).
  now exists c, data.
Qed.

(** X10. A truthy value given for an optional parameter is sent unchanged
    under the wire name of the parameter, whatever the other arguments
    are. *)
Theorem truthy_optional_fields_are_sent
    (net : Transport) (w : World) (v : pyval)
    (wa ta sa ad ra : pyval) (pc p aa af jt sb ts : option pyval) :
  truthy v = true ->
  carries (TokensClient.buy net wa ta sa p (Some v) af jt sb) w
          "affiliateAddress" v /\
  carries (TokensClient.buy net wa ta sa p aa (Some v) jt sb) w
          "affiliateFee" v /\
  carries (TokensClient.buy net wa ta sa p aa af (Some v) sb) w
          "jitoTipLamports" v /\
  carries (TokensClient.buy net wa ta sa p aa af jt (Some v)) w
          "slippageBps" v /\
  carries (TokensClient.sell net wa ta pc p (Some v) af jt sb) w
          "affiliateAddress" v /\
  carries (TokensClient.sell net wa ta pc p aa (Some v) jt sb) w
          "affiliateFee" v /\
  carries (TokensClient.sell net wa ta pc p aa af (Some v) sb) w
          "jitoTipLamports" v /\
  carries (TokensClient.sell net wa ta pc p aa af jt (Some v)) w
          "slippageBps" v /\
  carries (AnalyticsClient.calculate_pnl net ad (Some v) ts) w
          "tokenAddress" v /\
  carries (WalletsClient.consolidate net wa ra pc (Some v)) w
          "tokenAddress" v.
Proof.
  intros Htruthy.
  repeat apply conj; apply request_json_carries;
    unfold TokensClient.buy_data, TokensClient.sell_data,
      AnalyticsClient.calculate_pnl_data, WalletsClient.consolidate_data;
    cbv zeta; cbn [supplied_or];
    try (destruct (truthy (supplied_or (PBool false) ts));
         [rewrite lookup_insert_ne by discriminate|]);
    present_key.
Qed.

Lemma truthy_optional_fields_are_sent_witness :
  carries (TokensClient.buy Sample.net_ok Sample.wallets Sample.token
             Sample.sol_amount None None None (Some (PInt 5000000))
             (Some (PInt 9990)))
          Sample.world "slippageBps" (PInt 9990).
Proof.
  apply (truthy_optional_fields_are_sent Sample.net_ok Sample.world
           (PInt 9990) Sample.wallets Sample.token Sample.sol_amount
           Sample.wallets Sample.token None None None None
           (Some (PInt 5000000)) None None).
  reflexivity.
Defined.

(** X11. [analytics.calculate_pnl] does not send the value it was given for
    [include_timestamp]: any truthy value puts the same object,
    [{"includeTimestamp": true}], under [options]. *)
Theorem include_timestamp_is_normalised
    (net : Transport) (w : World) (v ad : pyval) (ta : option pyval) :
  truthy v = true ->
  carries (AnalyticsClient.calculate_pnl net ad ta (Some v)) w
          "options" (PDict {["includeTimestamp" := PBool true]}).
Proof.
  intros Htruthy. apply request_json_carries.
  unfold AnalyticsClient.calculate_pnl_data; cbv zeta; cbn [supplied_or].
  rewrite Htruthy. apply lookup_insert_eq.
Qed.

Lemma include_timestamp_is_normalised_witness :
  carries (AnalyticsClient.calculate_pnl Sample.net_ok Sample.wallets None
             (Some (PInt 1)))
          Sample.world "options" (PDict {["includeTimestamp" := PBool true]}).
Proof.
  apply (include_timestamp_is_normalised Sample.net_ok Sample.world
           (PInt 1) Sample.wallets None).
  reflexivity.
Defined.

(** X12. The required fields and the fields with a default are always sent:
    the given value, falsy or not, and otherwise the default ("auto" for
    [protocol], 100 for [percentage], [False] for [use_rpc]). No optional
    field overwrites them. *)
Theorem required_and_defaulted_fields_are_sent
    (net : Transport) (w : World)
    (wa ta sa ad ra txs : pyval) (pc p aa af jt sb ts tk rpc : option pyval) :
  (carries (TokensClient.buy net wa ta sa p aa af jt sb) w
           "walletAddresses" wa /\
   carries (TokensClient.buy net wa ta sa p aa af jt sb) w
           "tokenAddress" ta /\
   carries (TokensClient.buy net wa ta sa p aa af jt sb) w
           "solAmount" sa /\
   carries (TokensClient.buy net wa ta sa p aa af jt sb) w
           "protocol" (supplied_or (PStr "auto") p)) /\
  (carries (TokensClient.sell net wa ta pc p aa af jt sb) w
           "walletAddresses" wa /\
   carries (TokensClient.sell net wa ta pc p aa af jt sb) w
           "tokenAddress" ta /\
   carries (TokensClient.sell net wa ta pc p aa af jt sb) w
           "percentage" (supplied_or (PInt 100) pc) /\
   carries (TokensClient.sell net wa ta pc p aa af jt sb) w
           "protocol" (supplied_or (PStr "auto") p)) /\
  (carries (TransactionsClient.send net txs rpc) w "transactions" txs /\
   carries (TransactionsClient.send net txs rpc) w
           "useRpc" (supplied_or (PBool false) rpc)) /\
  carries (AnalyticsClient.calculate_pnl net ad tk ts) w "addresses" ad /\
  (carries (WalletsClient.consolidate net wa ra pc tk) w
           "sourceAddresses" wa /\
   carries (WalletsClient.consolidate net wa ra pc tk) w
           "receiverAddress" ra /\
   carries (WalletsClient.consolidate net wa ra pc tk) w
           "percentage" (supplied_or (PInt 100) pc)).
Proof.
  repeat apply conj; apply request_json_carries;
    unfold TokensClient.buy_data, TokensClient.sell_data,
      TransactionsClient.send_data,
      AnalyticsClient.calculate_pnl_data, WalletsClient.consolidate_data;
    cbv zeta;
    try (destruct (truthy (supplied_or (PBool false) ts));
         [rewrite lookup_insert_ne by discriminate|]);
    present_key.
Qed.

Lemma request_json_sends_keys (net : Transport) (endpoint : string)
    (data : gmap string pyval) (w : World) (keys : gset string) :
  dom data = keys ->
  sends_keys (FurySDK.request net "POST" endpoint (json_kwargs data)) w keys.
Proof.
  intros Hkeys.
  destruct (request_json_sent net endpoint data w) as (c & Hsent & _ & _ & Hbody).
  now exists c, data.
Qed.

Lemma request_json_keys_between (net : Transport) (endpoint : string)
    (data : gmap string pyval) (w : World) (required allowed : gset string) :
  required ⊆ dom data -> dom data ⊆ allowed ->
  keys_between (FurySDK.request net "POST" endpoint (json_kwargs data)) w
    required allowed.
Proof.
  intros Hlow Hhigh.
  destruct (request_json_sent net endpoint data w) as (c & Hsent & _ & _ & Hbody).
  now exists c, data.
Qed.

Lemma dom_set_if_truthy (key : string) (value : pyval)
    (data : gmap string pyval) :
  dom (set_if_truthy key value data) =
    if truthy value then {[key]} ∪ dom data else dom data.
Proof.
  unfold set_if_truthy. destruct (truthy value); [|reflexivity].
  apply dom_insert_L.
Qed.

(** X13. The methods without optional fields send a body with a fixed set
    of keys, whatever the arguments are: an empty or [None] argument is sent
    like any other (so [tokens.transfer] with an empty token address, the
    documented way to transfer SOL, still carries [tokenAddress]). *)
Theorem fixed_bodies_have_fixed_keys
    (net : Transport) (w : World) (a b c d e : pyval) (rpc : option pyval) :
  sends_keys (TokensClient.transfer net a b c d) w
    {["senderPublicKey"; "receiver"; "tokenAddress"; "amount"]} /\
  sends_keys (TokensClient.create net a b c d) w
    {["walletAddresses"; "mintPubkey"; "config"; "amounts"]} /\
  sends_keys (TokensClient.burn net a b c) w
    {["walletPublicKey"; "tokenAddress"; "amount"]} /\
  sends_keys (TokensClient.cleaner net a b c d e) w
    {["sellerAddress"; "buyerAddress"; "tokenAddress"; "sellPercentage";
      "buyPercentage"]} /\
  sends_keys (TransactionsClient.send net a rpc) w
    {["transactions"; "useRpc"]} /\
  sends_keys (WalletsClient.distribute net a b) w
    {["sender"; "recipients"]}.
Proof.
  repeat apply conj; apply request_json_sends_keys;
    unfold TokensClient.transfer_data, TokensClient.create_data,
      TokensClient.burn_data, TokensClient.cleaner_data,
      TransactionsClient.send_data, WalletsClient.distribute_data;
    cbv zeta; rewrite !dom_insert_L, dom_empty_L; set_solver.
Qed.

(** X14. The methods with optional fields send their required fields and
    nothing outside the documented field names: no call path adds another
    key. *)
Theorem optional_bodies_stay_within_documented_keys
    (net : Transport) (w : World)
    (wa ta sa ad ra : pyval) (pc p aa af jt sb ts tk : option pyval) :
  keys_between (TokensClient.buy net wa ta sa p aa af jt sb) w
    {["walletAddresses"; "tokenAddress"; "solAmount"; "protocol"]}
    {["walletAddresses"; "tokenAddress"; "solAmount"; "protocol";
      "affiliateAddress"; "affiliateFee"; "jitoTipLamports"; "slippageBps"]} /\
  keys_between (TokensClient.sell net wa ta pc p aa af jt sb) w
    {["walletAddresses"; "tokenAddress"; "percentage"; "protocol"]}
    {["walletAddresses"; "tokenAddress"; "percentage"; "protocol";
      "affiliateAddress"; "affiliateFee"; "jitoTipLamports"; "slippageBps"]} /\
  keys_between (AnalyticsClient.calculate_pnl net ad tk ts) w
    {["addresses"]}
    {["addresses"; "tokenAddress"; "options"]} /\
  keys_between (WalletsClient.consolidate net wa ra pc tk) w
    {["sourceAddresses"; "receiverAddress"; "percentage"]}
    {["sourceAddresses"; "receiverAddress"; "percentage"; "tokenAddress"]}.
Proof.
  repeat apply conj; apply request_json_keys_between;
    unfold TokensClient.buy_data, TokensClient.sell_data,
      AnalyticsClient.calculate_pnl_data, WalletsClient.consolidate_data;
    cbv zeta;
    try (destruct (truthy (supplied_or (PBool false) ts)));
    rewrite ?dom_set_if_truthy, ?dom_insert_L, ?dom_set_if_truthy,
      ?dom_insert_L, ?dom_empty_L;
    repeat match goal with
           | |- context [truthy ?v] => destruct (truthy v)
           end;
    set_solver.
Qed.

(** X15. The two GET calls carry no body: [health_check] and
    [utilities.generate_mint] each make one GET, to the base URL followed by
    [/health] and by [/api/utilities/generate-mint], with no keyword
    argument at all. *)
Theorem get_calls_have_no_body (net : Transport) (w : World) :
  sent (FurySDK.health_check net) w
       [ {| call_method := "GET";
            call_url := base_url (sdk w) ++ "/health";
            call_kwargs := ∅ |} ] /\
  sent (UtilitiesClient.generate_mint net) w
       [ {| call_method := "GET";
            call_url := base_url (sdk w) ++ "/api/utilities/generate-mint";
            call_kwargs := ∅ |} ] /\
  json_body {| call_method := "GET";
               call_url := base_url (sdk w) ++ "/health";
               call_kwargs := ∅ |} = None.
Proof.
  unfold sent, FurySDK.health_check, UtilitiesClient.generate_mint.
  rewrite !request_world. repeat split.
Qed.

(** * Further properties of the models *)

(** X16. A name accepted by [Protocol.validate] comes back in canonical
    form: the result is one of the six protocol values, and validating the
    result again returns it unchanged. *)
Theorem Protocol_validate_result_is_canonical (protocol s : string) :
  Protocol.validate protocol = Returned s ->
  In s Protocol.values /\ Protocol.validate s = Returned s.
Proof.
  unfold Protocol.validate at 1.
  destruct (Protocol.is_value (PyStr.lower protocol)) eqn:Hmem; cbn [negb];
    intros Hres; [|discriminate Hres].
  injection Hres as <-.
  apply is_value_In in Hmem. split; [exact Hmem|].
  unfold Protocol.values in Hmem. cbn [In] in Hmem.
  destruct Hmem as [<-|[<-|[<-|[<-|[<-|[<-|[]]]]]]]; reflexivity.
Qed.

Lemma Protocol_validate_result_is_canonical_witness :
  In "pumpswap" Protocol.values /\
  Protocol.validate "pumpswap" = Returned "pumpswap".
Proof.
  apply (Protocol_validate_result_is_canonical "PumpSwap" "pumpswap").
  reflexivity.
Defined.

(** X17. A name rejected by [Protocol.validate] is reported with its
    original spelling, followed by the six accepted values; the exception is
    a built-in [ValueError], not one of the error classes of the SDK. *)
Theorem Protocol_validate_rejection (protocol : string) :
  ~ In (PyStr.lower protocol) Protocol.values ->
  Protocol.validate protocol =
    Raised (ValueError
              ("Invalid protocol: " ++ protocol ++
               ". Must be one of: raydium, jupiter, pumpfun, moonshot, pumpswap, auto")) /\
  forall msg, is_sdk_error (ValueError msg) = false.
Proof.
  intros Hout. split; [|reflexivity].
  unfold Protocol.validate.
  destruct (Protocol.is_value (PyStr.lower protocol)) eqn:Hmem; cbn [negb].
  - apply is_value_In in Hmem. contradiction.
  - reflexivity.
Qed.

Lemma Protocol_validate_rejection_witness :
  Protocol.validate "Uniswap" =
    Raised (ValueError
              "Invalid protocol: Uniswap. Must be one of: raydium, jupiter, pumpfun, moonshot, pumpswap, auto").
Proof.
  apply (proj1 (Protocol_validate_rejection "Uniswap"
                  ltac:(vm_compute;
                        intros [H|[H|[H|[H|[H|[H|[]]]]]]]; discriminate H))).
Defined.

(** X18. [Recipient.to_dict] loses nothing: the dictionary has exactly the
    keys [address] and [amount], and two recipients with the same dictionary
    are the same recipient. *)
Theorem Recipient_to_dict_is_faithful (r1 r2 : Recipient.t) :
  dom (Recipient.to_dict r1) = {["address"; "amount"]} /\
  (Recipient.to_dict r1 = Recipient.to_dict r2 -> r1 = r2).
Proof.
  split.
  - unfold Recipient.to_dict. rewrite !dom_insert_L, dom_empty_L. set_solver.
  - intros Heq. destruct r1 as [a1 m1], r2 as [a2 m2].
    unfold Recipient.to_dict in Heq. cbn [Recipient.address Recipient.amount] in Heq.
    pose proof (f_equal (fun d => d !! "address") Heq) as Ha.
    pose proof (f_equal (fun d => d !! "amount") Heq) as Hm.
    cbn beta in Ha, Hm.
    rewrite !lookup_insert_eq in Ha.
    rewrite !(lookup_insert_ne _ "address" "amount") in Hm by discriminate.
    rewrite !lookup_insert_eq in Hm.
    congruence.
Qed.

Lemma Recipient_to_dict_is_faithful_witness :
  dom (Recipient.to_dict
         {| Recipient.address := "B"; Recipient.amount := "10" |}) =
    {["address"; "amount"]} /\
  {| Recipient.address := "B"; Recipient.amount := "10" |} =
    {| Recipient.address := "B"; Recipient.amount := "10" |}.
Proof.
  split.
  - apply (proj1 (Recipient_to_dict_is_faithful
                    {| Recipient.address := "B"; Recipient.amount := "10" |}
                    {| Recipient.address := "B"; Recipient.amount := "10" |})).
  - apply (proj2 (Recipient_to_dict_is_faithful
                    {| Recipient.address := "B"; Recipient.amount := "10" |}
                    {| Recipient.address := "B"; Recipient.amount := "10" |})).
    reflexivity.
Defined.

Lemma link_or_empty (o : option string) :
  py_or (opt_str o) (PStr EmptyString) = PStr (link_text o).
Proof. destruct o as [[|c s]|]; reflexivity. Qed.

(** The two dictionaries inside the result of [to_dict]. *)
Lemma to_dict_unfold (c : TokenCreationConfig.t) :
  TokenCreationConfig.to_dict c =
    {["tokenCreation" :=
        PDict
          (<["metadata" :=
               PDict
                 (<["name" := PStr (TokenMetadata.name
                                      (TokenCreationConfig.metadata c))]>
                    (<["symbol" := PStr (TokenMetadata.symbol
                                           (TokenCreationConfig.metadata c))]>
                       (<["description" :=
                            PStr (TokenMetadata.description
                                    (TokenCreationConfig.metadata c))]>
                          (<["file" := PStr (TokenMetadata.file
                                               (TokenCreationConfig.metadata c))]>
                             (<["telegram" :=
                                  PStr (link_text
                                          (TokenMetadata.telegram
                                             (TokenCreationConfig.metadata c)))]>
                                (<["twitter" :=
                                     PStr (link_text
                                             (TokenMetadata.twitter
                                                (TokenCreationConfig.metadata c)))]>
                                   (<["website" :=
                                        PStr (link_text
                                                (TokenMetadata.website
                                                   (TokenCreationConfig.metadata c)))]>
                                      ∅)))))))]>
             (<["defaultSolAmount" :=
                  PFloat (TokenCreationConfig.default_sol_amount c)]> ∅))]}.
Proof.
  unfold TokenCreationConfig.to_dict. now rewrite !link_or_empty.
Qed.

(** X19. The dictionary built by [create_token_config] has one key,
    [tokenCreation], over [metadata] and [defaultSolAmount]. The amount is
    the one given, or 0.1. The metadata always has all seven keys: the three
    links are never left out and never [None]; a missing or empty link is
    sent as the empty string. *)
Theorem create_token_config_shape
    (metadata : TokenMetadata.t) (amount : option spec_float) :
  exists inner meta : gmap string pyval,
    create_token_config metadata amount = {["tokenCreation" := PDict inner]} /\
    dom inner = {["metadata"; "defaultSolAmount"]} /\
    inner !! "defaultSolAmount" =
      Some (PFloat (match amount with Some f => f | None => one_tenth end)) /\
    inner !! "metadata" = Some (PDict meta) /\
    dom meta = {["name"; "symbol"; "description"; "file"; "telegram";
                 "twitter"; "website"]} /\
    meta !! "name" = Some (PStr (TokenMetadata.name metadata)) /\
    meta !! "symbol" = Some (PStr (TokenMetadata.symbol metadata)) /\
    meta !! "description" = Some (PStr (TokenMetadata.description metadata)) /\
    meta !! "file" = Some (PStr (TokenMetadata.file metadata)) /\
    meta !! "telegram" =
      Some (PStr (link_text (TokenMetadata.telegram metadata))) /\
    meta !! "twitter" =
      Some (PStr (link_text (TokenMetadata.twitter metadata))) /\
    meta !! "website" =
      Some (PStr (link_text (TokenMetadata.website metadata))).
Proof.
  unfold create_token_config. rewrite to_dict_unfold.
  cbn [TokenCreationConfig.init TokenCreationConfig.metadata
         TokenCreationConfig.default_sol_amount].
  do 2 eexists. split; [reflexivity|].
  split; [rewrite !dom_insert_L, dom_empty_L; set_solver|].
  split; [now rewrite lookup_insert_ne, lookup_insert_eq by discriminate|].
  split; [now rewrite lookup_insert_eq|].
  split; [rewrite !dom_insert_L, dom_empty_L; set_solver|].
  repeat split;
    repeat (rewrite lookup_insert_ne by discriminate);
    apply lookup_insert_eq.
Qed.

(** Evaluate the lookups of literal keys in a hypothesis. *)
Ltac read_lookups H :=
  repeat match type of H with
         | context [ (<[?i := ?x]> ?m) !! ?j ] =>
             first [ rewrite (lookup_insert_ne m i j x) in H by discriminate
                   | rewrite (lookup_insert_eq m i x) in H ]
         end.

(** X20. [TokenCreationConfig.to_dict] keeps everything except the
    difference between a missing link and an empty one: two configurations
    have the same dictionary exactly when they agree on the four required
    texts, on the amount, and on the three links read as texts. *)
Theorem to_dict_equal_iff (c1 c2 : TokenCreationConfig.t) :
  TokenCreationConfig.to_dict c1 = TokenCreationConfig.to_dict c2 <->
  TokenMetadata.name (TokenCreationConfig.metadata c1) =
    TokenMetadata.name (TokenCreationConfig.metadata c2) /\
  TokenMetadata.symbol (TokenCreationConfig.metadata c1) =
    TokenMetadata.symbol (TokenCreationConfig.metadata c2) /\
  TokenMetadata.description (TokenCreationConfig.metadata c1) =
    TokenMetadata.description (TokenCreationConfig.metadata c2) /\
  TokenMetadata.file (TokenCreationConfig.metadata c1) =
    TokenMetadata.file (TokenCreationConfig.metadata c2) /\
  link_text (TokenMetadata.telegram (TokenCreationConfig.metadata c1)) =
    link_text (TokenMetadata.telegram (TokenCreationConfig.metadata c2)) /\
  link_text (TokenMetadata.twitter (TokenCreationConfig.metadata c1)) =
    link_text (TokenMetadata.twitter (TokenCreationConfig.metadata c2)) /\
  link_text (TokenMetadata.website (TokenCreationConfig.metadata c1)) =
    link_text (TokenMetadata.website (TokenCreationConfig.metadata c2)) /\
  TokenCreationConfig.default_sol_amount c1 =
    TokenCreationConfig.default_sol_amount c2.
Proof.
  rewrite !to_dict_unfold. split.
  - intros Heq.
    apply (f_equal (fun d => as_dict (d !! "tokenCreation"))) in Heq.
    rewrite !lookup_singleton_eq in Heq. cbn [as_dict] in Heq.
    pose proof (f_equal (fun d => d !! "defaultSolAmount") Heq) as Hamount.
    pose proof (f_equal (fun d => as_dict (d !! "metadata")) Heq) as Hmeta.
    cbn beta in Hamount, Hmeta.
    rewrite !(lookup_insert_ne _ "metadata" "defaultSolAmount") in Hamount
      by discriminate.
    rewrite !lookup_insert_eq in Hamount, Hmeta. cbn [as_dict] in Hmeta.
    pose proof (f_equal (fun d => d !! "name") Hmeta) as H1.
    pose proof (f_equal (fun d => d !! "symbol") Hmeta) as H2.
    pose proof (f_equal (fun d => d !! "description") Hmeta) as H3.
    pose proof (f_equal (fun d => d !! "file") Hmeta) as H4.
    pose proof (f_equal (fun d => d !! "telegram") Hmeta) as H5.
    pose proof (f_equal (fun d => d !! "twitter") Hmeta) as H6.
    pose proof (f_equal (fun d => d !! "website") Hmeta) as H7.
    cbn beta in H1, H2, H3, H4, H5, H6, H7.
    read_lookups H1. read_lookups H2. read_lookups H3. read_lookups H4.
    read_lookups H5. read_lookups H6. read_lookups H7.
    repeat split; congruence.
  - intros (-> & -> & -> & -> & -> & -> & -> & ->). reflexivity.
Qed.

Lemma to_dict_equal_iff_witness :
  TokenCreationConfig.to_dict
    (TokenCreationConfig.init
       {| TokenMetadata.name := "Fury"; TokenMetadata.symbol := "FURY";
          TokenMetadata.description := "A token";
          TokenMetadata.file := "https://fury.bot/logo.png";
          TokenMetadata.telegram := None;
          TokenMetadata.twitter := Some "https://x.com/fury";
          TokenMetadata.website := None |} None) =
  TokenCreationConfig.to_dict
    (TokenCreationConfig.init
       {| TokenMetadata.name := "Fury"; TokenMetadata.symbol := "FURY";
          TokenMetadata.description := "A token";
          TokenMetadata.file := "https://fury.bot/logo.png";
          TokenMetadata.telegram := Some EmptyString;
          TokenMetadata.twitter := Some "https://x.com/fury";
          TokenMetadata.website := None |} (Some one_tenth)).
Proof.
  apply (proj2 (to_dict_equal_iff _ _)).
  repeat split.
Defined.
